(** * Tournament score server: a shallow embedding of [server.js]

    The server keeps one SQLite table, [tournament_scores], and answers these
    requests over it: score submission (an upsert that keeps the best
    score), the ranked leaderboard, aggregate statistics, the rank of one
    participant, and the administrative clearing of the table, deletion of
    one record and backup.

    What is modelled, and how:
    - a field of a JSON body or of a query string is a [js A]: absent
      ([Undefined]), [Null], or a value of the type the interface gives it;
      the JavaScript operators the handlers use on such fields ([!x],
      [x || d], [x === undefined], [parseInt]) are functions on [js A];
    - a string is the sequence of the bytes of its UTF-8 encoding;
      [parseInt] returns a [number]: NaN, an integer that is a double, or an
      infinity; a LIMIT or OFFSET that SQLite cannot take as a 64-bit
      integer fails the statement, and the leaderboard answers 500;
    - the table is the list of its rows in rowid order, together with the
      AUTOINCREMENT counter and the connection's last inserted rowid; each SQL
      statement of the source is one function over that state;
    - [CURRENT_TIMESTAMP] is an integer number of seconds handed to the
      handler by its caller (SQLite's timestamp has a resolution of one
      second, and its text form orders like the number);
    - scores, levels and times are integers ([Z]) and the accuracy rate is
      a rational ([Q]); an average is not computed: it is NULL over no row,
      and otherwise stands for AVG over the listed values, which SQLite
      returns as a double;
    - the level breakdown is an opaque [object]; [JSON.stringify] and
      [JSON.parse] are parameters of the development;
    - storage failures other than the table's own constraints (I/O errors)
      and the rate limiter are outside the model. *)

From Stdlib Require Import ZArith QArith List String Ascii Bool Lia.
From Stdlib Require Import Permutation Sorted RelationClasses.
Import ListNotations.

Local Open Scope string_scope.
Local Open Scope Z_scope.

(** ** JavaScript values at the interface *)

Inductive js (A : Type) : Type :=
| Undefined
| Null
| Val (a : A).
Arguments Undefined {A}.
Arguments Null {A}.
Arguments Val {A} a.

(** Truthiness of a present value: the empty string and the number zero are
    falsy, an object never is. *)
Class Truthy (A : Type) := truthy : A -> bool.

#[export] Instance string_truthy : Truthy string :=
  fun s => negb (String.eqb s "").
#[export] Instance Z_truthy : Truthy Z :=
  fun n => negb (n =? 0).
#[export] Instance Q_truthy : Truthy Q :=
  fun q => negb (Qnum q =? 0).

Definition is_truthy {A} `{Truthy A} (x : js A) : bool :=
  match x with
  | Val a => truthy a
  | _ => false
  end.

(** [x || y] on two optional fields. *)
Definition js_or {A} `{Truthy A} (x y : js A) : js A :=
  if is_truthy x then x else y.

(** [x || d] with a literal default [d]. *)
Definition or_default {A} `{Truthy A} (x : js A) (d : A) : A :=
  match x with
  | Val a => if truthy a then a else d
  | _ => d
  end.

(** [x === undefined] *)
Definition is_undefined {A} (x : js A) : bool :=
  match x with
  | Undefined => true
  | _ => false
  end.

(** How node-sqlite3 binds a parameter: an undefined parameter is left
    unbound, which SQLite reads as NULL, and null is NULL. *)
Definition bind {A} (x : js A) : option A :=
  match x with
  | Val a => Some a
  | _ => None
  end.

(** *** parseInt

    A string is the sequence of the bytes of its UTF-8 encoding.  [parseInt]
    of a string skips the leading white space of JavaScript (the ASCII
    characters 9 to 13 and 32, and U+00A0, U+1680, U+2000 to U+200A, U+2028,
    U+2029, U+202F, U+205F, U+3000 and U+FEFF), reads an optional sign, an
    optional [0x] prefix and the longest run of digits of the radix, and
    returns the double nearest to the integer read: [NaN] when there is no
    digit, an infinity when the integer is beyond the doubles. *)

(** The numbers [parseInt] can return: NaN, a double that is an integer, or
    an infinity. *)
Inductive number : Type :=
| NaN
| Num (n : Z)
| Infinity (negative : bool).

Definition is_space (c : ascii) : bool :=
  let n := Z.of_nat (nat_of_ascii c) in
  ((9 <=? n) && (n <=? 13)) || (n =? 32).

Definition byte (c : ascii) : Z := Z.of_nat (nat_of_ascii c).

(** U+00A0 *)
Definition is_space2 (c1 c2 : ascii) : bool :=
  (byte c1 =? 194) && (byte c2 =? 160).

(** U+1680, U+2000 to U+200A, U+2028, U+2029, U+202F, U+205F, U+3000,
    U+FEFF *)
Definition is_space3 (c1 c2 c3 : ascii) : bool :=
  ((byte c1 =? 225) && (byte c2 =? 154) && (byte c3 =? 128))
  || ((byte c1 =? 226) && (byte c2 =? 128)
      && (((128 <=? byte c3) && (byte c3 <=? 138))
          || (byte c3 =? 168) || (byte c3 =? 169) || (byte c3 =? 175)))
  || ((byte c1 =? 226) && (byte c2 =? 129) && (byte c3 =? 159))
  || ((byte c1 =? 227) && (byte c2 =? 128) && (byte c3 =? 128))
  || ((byte c1 =? 239) && (byte c2 =? 187) && (byte c3 =? 191)).

Fixpoint trim_left (s : string) : string :=
  match s with
  | String c1 s1 =>
      if is_space c1 then trim_left s1
      else
        match s1 with
        | String c2 s2 =>
            if is_space2 c1 c2 then trim_left s2
            else
              match s2 with
              | String c3 s3 =>
                  if is_space3 c1 c2 c3 then trim_left s3 else s
              | EmptyString => s
              end
        | EmptyString => s
        end
  | EmptyString => s
  end.

Definition digit_value (radix : Z) (c : ascii) : option Z :=
  let n := Z.of_nat (nat_of_ascii c) in
  let v :=
    if (48 <=? n) && (n <=? 57) then Some (n - 48)
    else if (97 <=? n) && (n <=? 122) then Some (n - 87)
    else if (65 <=? n) && (n <=? 90) then Some (n - 55)
    else None in
  match v with
  | Some d => if d <? radix then Some d else None
  | None => None
  end.

Fixpoint digits (radix : Z) (s : string) (acc : option Z) : option Z :=
  match s with
  | String c s' =>
      match digit_value radix c with
      | Some d =>
          digits radix s'
            (Some (radix * match acc with Some a => a | None => 0 end + d))
      | None => acc
      end
  | EmptyString => acc
  end.

(** The double nearest to an integer: integers below 2^53 in absolute value
    are doubles; a larger one keeps its 53 leading bits, rounded to nearest
    with ties to even, and is an infinity from 2^1024 on. *)
Definition round_to_double (n : Z) : number :=
  let a := Z.abs n in
  if a <? 2 ^ 53 then Num n
  else
    let e := Z.log2 a - 52 in
    let q := a / 2 ^ e in
    let r := a mod 2 ^ e in
    let half := 2 ^ (e - 1) in
    let q' := if (half <? r) || ((r =? half) && Z.odd q) then q + 1 else q in
    let m := q' * 2 ^ e in
    if m <? 2 ^ 1024 then Num (Z.sgn n * m) else Infinity (n <? 0).

Definition parseInt (x : js string) : number :=
  match x with
  | Val s =>
      let s := trim_left s in
      let '(sign, s) :=
        match s with
        | String "-"%char s' => (-1, s')
        | String "+"%char s' => (1, s')
        | _ => (1, s)
        end in
      let '(radix, s) :=
        match s with
        | String "0"%char (String "x"%char s') => (16, s')
        | String "0"%char (String "X"%char s') => (16, s')
        | _ => (10, s)
        end in
      match digits radix s None with
      | Some v => round_to_double (sign * v)
      | None => NaN
      end
  | _ => NaN
  end.

(** [n || d]: NaN and 0 are falsy, every other number is truthy. *)
Definition number_or (n : number) (d : Z) : number :=
  match n with
  | NaN => Num d
  | Num v => if v =? 0 then Num d else n
  | Infinity _ => n
  end.

(** ** The table *)

(** One row of [tournament_scores].  The columns declared NOT NULL hold a
    value; the others may be NULL. *)
Record row := mkRow {
  id : Z;
  registration_number : string;
  student_name : option string;
  final_score : Z;
  levels_completed : Z;
  accuracy_rate : Q;
  time_remaining : Z;
  level_breakdown : option string;
  completion_time : Z;
  ip_address : option string;
  session_id : option string
}.

(** The database as the server's one connection sees it. *)
Record database := mkDatabase {
  tournament_scores : list row;   (* rows in rowid order *)
  sqlite_sequence : Z;            (* largest rowid AUTOINCREMENT has handed out *)
  last_insert_rowid : Z           (* rowid of the connection's last INSERT *)
}.

Definition empty_database : database :=
  {| tournament_scores := []; sqlite_sequence := 0; last_insert_rowid := 0 |}.

(** The values bound to the nine [?] of the upsert, NULL when unbound. *)
Record params := mkParams {
  p_registration_number : option string;
  p_student_name : option string;
  p_final_score : option Z;
  p_levels_completed : option Z;
  p_accuracy_rate : option Q;
  p_time_remaining : option Z;
  p_level_breakdown : option string;
  p_ip_address : option string;
  p_session_id : option string
}.

Inductive sqlite_result (A : Type) : Type :=
| Done (a : A)
| SqliteError (message : string).
Arguments Done {A} a.
Arguments SqliteError {A} message.

Definition has_key (reg : string) (r : row) : bool :=
  String.eqb (registration_number r) reg.

(** The row a key names, if any. *)
Definition lookup (reg : string) (db : database) : option row :=
  find (has_key reg) (tournament_scores db).

Definition max_rowid (rows : list row) : Z :=
  fold_left Z.max (map id rows) 0.

(** The DO UPDATE SET clause: [r] is the conflicting row, [excluded] the row
    that would have been inserted. *)
Definition do_update (now : Z) (excluded r : row) : row :=
  {| id := id r;
     registration_number := registration_number r;
     student_name := student_name excluded;
     final_score :=
       if final_score excluded >? final_score r
       then final_score excluded
       else final_score r;
     levels_completed := levels_completed excluded;
     accuracy_rate := accuracy_rate excluded;
     time_remaining := time_remaining excluded;
     level_breakdown := level_breakdown excluded;
     completion_time := now;
     ip_address := ip_address excluded;
     session_id := session_id excluded |}.

(** INSERT ... ON CONFLICT(registration_number) DO UPDATE.  The NOT NULL
    constraints are checked on the incoming row before the conflict on the
    key is looked for, and a violation aborts the statement.  A fresh rowid
    is drawn from the AUTOINCREMENT counter for every attempted row, also
    when the row ends up merged; only a real INSERT moves
    [last_insert_rowid].  [completion_time] is not among the inserted
    columns and takes its default, CURRENT_TIMESTAMP. *)
Definition upsertQuery (db : database) (now : Z) (p : params)
  : sqlite_result database :=
  match p_registration_number p, p_final_score p, p_levels_completed p,
        p_accuracy_rate p, p_time_remaining p with
  | Some reg, Some score, Some levels, Some acc, Some time =>
      let rows := tournament_scores db in
      let newid := Z.max (sqlite_sequence db) (max_rowid rows) + 1 in
      let excluded :=
        {| id := newid;
           registration_number := reg;
           student_name := p_student_name p;
           final_score := score;
           levels_completed := levels;
           accuracy_rate := acc;
           time_remaining := time;
           level_breakdown := p_level_breakdown p;
           completion_time := now;
           ip_address := p_ip_address p;
           session_id := p_session_id p |} in
      if existsb (has_key reg) rows then
        Done {| tournament_scores :=
                  map (fun r => if has_key reg r then do_update now excluded r
                                else r) rows;
                sqlite_sequence := newid;
                last_insert_rowid := last_insert_rowid db |}
      else
        Done {| tournament_scores := (rows ++ [excluded])%list;
                sqlite_sequence := newid;
                last_insert_rowid := newid |}
  | _, _, _, _, _ => SqliteError "SQLITE_CONSTRAINT: NOT NULL constraint failed"
  end.

(** DELETE FROM tournament_scores *)
Definition clearQuery (db : database) : database :=
  {| tournament_scores := [];
     sqlite_sequence := sqlite_sequence db;
     last_insert_rowid := last_insert_rowid db |}.

(** ** Ordering, numbering and paging *)

(** ORDER BY final_score DESC, completion_time ASC on the pair of sort keys:
    [before k1 k2] when a row with keys [k1] may stand before one with [k2]. *)
Definition before (k1 k2 : Z * Z) : bool :=
  (fst k2 <? fst k1) || ((fst k1 =? fst k2) && (snd k1 <=? snd k2)).

Definition sort_key (r : row) : Z * Z := (final_score r, completion_time r).

Section OrderBy.
Context {A : Type} (key : A -> Z * Z).

Fixpoint insert_sorted (x : A) (l : list A) : list A :=
  match l with
  | [] => [x]
  | y :: l' =>
      if before (key x) (key y) then x :: l
      else y :: insert_sorted x l'
  end.

(** The sorter: rows that agree on both keys keep the order in which the
    scan delivered them. *)
Fixpoint order_by (l : list A) : list A :=
  match l with
  | [] => []
  | x :: l' => insert_sorted x (order_by l')
  end.
End OrderBy.

(** ROW_NUMBER() over an already ordered partition, counting from [n]. *)
Fixpoint row_number {A : Type} (n : Z) (l : list A) : list (Z * A) :=
  match l with
  | [] => []
  | x :: l' => (n, x) :: row_number (n + 1) l'
  end.

(** LIMIT ? OFFSET ?: a negative limit is no limit, a negative offset is 0. *)
Definition limit_offset {A : Type} (limit offset : Z) (l : list A) : list A :=
  let rest := skipn (Z.to_nat offset) l in
  if limit <? 0 then rest else firstn (Z.to_nat limit) rest.

(** A JavaScript number bound to LIMIT or OFFSET.  The driver binds it as
    an INTEGER when it is a 32-bit integer and as a REAL otherwise, and
    SQLite requires an integer there: it takes a REAL that is an integer
    strictly between the smallest and the largest 64-bit integer, and fails
    with SQLITE_MISMATCH ([None]) on any other. *)
Definition must_be_int (n : number) : option Z :=
  match n with
  | Num v => if (- 2 ^ 63 <? v) && (v <? 2 ^ 63 - 1) then Some v else None
  | _ => None
  end.

(** ** Aggregates: NULL on no rows *)

Definition sql_max (l : list Z) : option Z :=
  match l with
  | [] => None
  | x :: l' => Some (fold_left Z.max l' x)
  end.

(** The double that AVG computes over the values of a column, taken in the
    order of the scan.  Its floating-point value depends on the summation of
    the SQLite at hand and is not computed here: the result records the
    values it is the average of. *)
Inductive average : Type :=
| AverageOf (values : list Q).

Definition sql_avg (l : list Q) : option average :=
  match l with
  | [] => None
  | _ => Some (AverageOf l)
  end.

(** ** Responses *)

Record response (A : Type) := mkResponse {
  status : Z;
  json : A
}.
Arguments mkResponse {A} status json.
Arguments status {A} r.
Arguments json {A} r.

(** [{success: false, message}] or [{success: true, ...payload}]. *)
Inductive body (A : Type) : Type :=
| Failure (message : string)
| Success (payload : A).
Arguments Failure {A} message.
Arguments Success {A} payload.

Definition success {A} (b : body A) : bool :=
  match b with
  | Success _ => true
  | Failure _ => false
  end.

(** The columns a leaderboard row carries; [B] is the type of the breakdown,
    TEXT as selected and an object once the handler has parsed it. *)
Module LeaderboardRow.
Record t (B : Type) := mk {
  rank : Z;
  registration_number : string;
  student_name : option string;
  final_score : Z;
  levels_completed : Z;
  accuracy_rate : Q;
  time_remaining : Z;
  level_breakdown : B;
  completion_time : Z
}.
Arguments mk {B}.
Arguments rank {B}.
Arguments registration_number {B}.
Arguments student_name {B}.
Arguments final_score {B}.
Arguments levels_completed {B}.
Arguments accuracy_rate {B}.
Arguments time_remaining {B}.
Arguments level_breakdown {B}.
Arguments completion_time {B}.
End LeaderboardRow.

(** The columns the rank query selects. *)
Module RankRow.
Record t := mk {
  rank : Z;
  registration_number : string;
  student_name : option string;
  final_score : Z;
  levels_completed : Z;
  accuracy_rate : Q;
  time_remaining : Z;
  completion_time : Z
}.
End RankRow.

Module StatsRow.
Record t := mk {
  total_participants : Z;
  highest_score : option Z;
  average_score : option average;
  average_levels_completed : option average;
  average_accuracy : option average
}.
End StatsRow.

(** ** The read queries *)

(** The window of both ranked queries: ROW_NUMBER() OVER (ORDER BY
    final_score DESC, completion_time ASC) on a scan of the table. *)
Definition ranked_scores (db : database) : list (Z * row) :=
  row_number 1 (order_by sort_key (tournament_scores db)).

(** The select list of the leaderboard query on one numbered row. *)
Definition select_columns (nr : Z * row) : LeaderboardRow.t (option string) :=
  let r := snd nr in
  LeaderboardRow.mk (fst nr) (registration_number r) (student_name r)
    (final_score r) (levels_completed r) (accuracy_rate r)
    (time_remaining r) (level_breakdown r) (completion_time r).

Definition leaderboardQuery (db : database) (limit offset : Z)
  : list (LeaderboardRow.t (option string)) :=
  map select_columns
      (limit_offset limit offset
         (order_by (fun nr => sort_key (snd nr)) (ranked_scores db))).

Definition statsQuery (db : database) : StatsRow.t :=
  let rows := tournament_scores db in
  StatsRow.mk
    (Z.of_nat (List.length rows))
    (sql_max (map final_score rows))
    (sql_avg (map (fun r => inject_Z (final_score r)) rows))
    (sql_avg (map (fun r => inject_Z (levels_completed r)) rows))
    (sql_avg (map accuracy_rate rows)).

(** [db.get] hands back the first row of the result, or undefined. *)
Definition rankQuery (db : database) (reg : string) : option RankRow.t :=
  match find (fun nr => has_key reg (snd nr)) (ranked_scores db) with
  | Some (rank, r) =>
      Some (RankRow.mk rank (registration_number r) (student_name r)
              (final_score r) (levels_completed r) (accuracy_rate r)
              (time_remaining r) (completion_time r))
  | None => None
  end.

(** ** The handlers *)

(** A nullable column as JavaScript sees it. *)
Definition of_sql {A} (x : option A) : js A :=
  match x with
  | Some a => Val a
  | None => Null
  end.

(** [GET /api/stats] *)
Record stats_payload := { stats : StatsRow.t }.

Definition get_stats (db : database) : response (body stats_payload) :=
  mkResponse 200 (Success {| stats := statsQuery db |}).

(** [GET /api/rank/:registrationNumber] *)
Record rank_payload := { student : RankRow.t }.

Definition get_rank (db : database) (registrationNumber : string)
  : response (body rank_payload) :=
  match rankQuery db registrationNumber with
  | None => mkResponse 404 (Failure "Student not found in leaderboard.")
  | Some r => mkResponse 200 (Success {| student := r |})
  end.

(** [DELETE /api/admin/clear-all]: the key comes from the query string or,
    failing that, from the [admin-key] header; [now] stands for
    [new Date().toISOString()]. *)
Record clear_payload := { clear_message : string; timestamp : Z }.

Definition is_admin (adminKey : js string) : bool :=
  match adminKey with
  | Val k => String.eqb k "IEEE2025ADMIN"
  | _ => false
  end.

Definition delete_clear_all (db : database) (now : Z)
    (query_key header_key : js string)
  : database * response (body clear_payload) :=
  let adminKey := js_or query_key header_key in
  if negb (is_admin adminKey) then
    (db, mkResponse 403 (Failure "Unauthorized. Admin key required."))
  else
    (clearQuery db,
     mkResponse 200
       (Success {| clear_message :=
                     "All tournament data has been cleared successfully.";
                   timestamp := now |})).

(** [DELETE /api/admin/clear-student] *)

(** DELETE FROM tournament_scores WHERE registration_number = ?, with the
    number of rows it removed ([this.changes]). *)
Definition deleteQuery (db : database) (reg : string) : database * Z :=
  let kept := filter (fun r => negb (has_key reg r)) (tournament_scores db) in
  ({| tournament_scores := kept;
      sqlite_sequence := sqlite_sequence db;
      last_insert_rowid := last_insert_rowid db |},
   Z.of_nat (List.length (tournament_scores db))
   - Z.of_nat (List.length kept)).

Record delete_payload := { delete_message : string; deletedRecords : Z }.

(** The value of [x] when [x] is truthy: what is left of [x] below a test
    of [!x] that did not return. *)
Definition truthy_value {A} `{Truthy A} (x : js A) : option A :=
  match x with
  | Val a => if truthy a then Some a else None
  | _ => None
  end.

(** The key is read as for clear-all; the registration number comes from
    the query string ([reg]) or, failing that, from the body (an absent body
    field is [Undefined]).  The key is checked before the registration
    number. *)
Definition delete_clear_student (db : database)
    (query_key header_key query_reg body_registrationNumber : js string)
  : database * response (body delete_payload) :=
  let adminKey := js_or query_key header_key in
  let registrationNumber := js_or query_reg body_registrationNumber in
  if negb (is_admin adminKey) then
    (db, mkResponse 403 (Failure "Unauthorized. Admin key required."))
  else
    match truthy_value registrationNumber with
    | None => (db, mkResponse 400 (Failure "Registration number is required."))
    | Some reg =>
        let '(db', changes) := deleteQuery db reg in
        if changes =? 0 then
          (db', mkResponse 404 (Failure "Student not found."))
        else
          (db', mkResponse 200
                  (Success {| delete_message :=
                                "Student record for " ++ reg
                                ++ " has been deleted.";
                              deletedRecords := changes |}))
    end.

(** [GET /api/admin/backup] *)

(** All the columns of a row, as SELECT * hands them over; [B] is the type
    of the breakdown, TEXT as stored and an object once parsed. *)
Module BackupRow.
Record t (B : Type) := mk {
  id : Z;
  registration_number : string;
  student_name : option string;
  final_score : Z;
  levels_completed : Z;
  accuracy_rate : Q;
  time_remaining : Z;
  level_breakdown : B;
  completion_time : Z;
  ip_address : option string;
  session_id : option string
}.
Arguments mk {B}.
Arguments id {B}.
Arguments registration_number {B}.
Arguments student_name {B}.
Arguments final_score {B}.
Arguments levels_completed {B}.
Arguments accuracy_rate {B}.
Arguments time_remaining {B}.
Arguments level_breakdown {B}.
Arguments completion_time {B}.
Arguments ip_address {B}.
Arguments session_id {B}.
End BackupRow.

Definition select_all (r : row) : BackupRow.t (option string) :=
  BackupRow.mk (id r) (registration_number r) (student_name r) (final_score r)
    (levels_completed r) (accuracy_rate r) (time_remaining r)
    (level_breakdown r) (completion_time r) (ip_address r) (session_id r).

(** ORDER BY completion_time DESC: the one sort key, descending. *)
Definition backup_key (r : row) : Z * Z := (completion_time r, 0).

(** SELECT * FROM tournament_scores ORDER BY completion_time DESC *)
Definition backupQuery (db : database) : list (BackupRow.t (option string)) :=
  map select_all (order_by backup_key (tournament_scores db)).

(** The body of the backup response: the refusal, or the export, which
    carries no [success] field.  The two headers set on the export are
    outside the model. *)
Inductive backup_body (A : Type) : Type :=
| BackupRefused (message : string)
| Backup (exportDate : Z) (totalRecords : Z) (data : list A).
Arguments BackupRefused {A} message.
Arguments Backup {A} exportDate totalRecords data.

Section Server.
(** The level breakdown and the two JSON functions the handlers call. *)
Context {object : Type}.
Variable empty_object : object.
Variable JSON_stringify : object -> string.
Variable JSON_parse : string -> object.

Set Default Proof Using "Type".

#[local] Instance object_truthy : Truthy object := fun _ => true.

(** [POST /api/submit-score] *)
Record submit_body := mkBody {
  registrationNumber : js string;
  studentName : js string;
  finalScore : js Z;
  levelsCompleted : js Z;
  accuracyRate : js Q;
  timeRemaining : js Z;
  levelBreakdown : js object;
  sessionId : js string
}.

Record submit_request := mkRequest {
  req_body : submit_body;
  ip : js string;
  remoteAddress : js string
}.

Record submit_payload := mkSubmitted {
  message : string;
  scoreId : Z;
  rank : option Z
}.

Definition submit_score (db : database) (now : Z) (req : submit_request)
  : database * response (body submit_payload) :=
  let b := req_body req in
  if negb (is_truthy (registrationNumber b)) || is_undefined (finalScore b)
  then
    (db, mkResponse 400
           (Failure "Registration number and final score are required."))
  else
    let clientIP := js_or (ip req) (remoteAddress req) in
    match upsertQuery db now
            {| p_registration_number := bind (registrationNumber b);
               p_student_name := Some (or_default (studentName b) "Anonymous");
               p_final_score := bind (finalScore b);
               p_levels_completed := Some (or_default (levelsCompleted b) 0);
               p_accuracy_rate := Some (or_default (accuracyRate b) 0%Q);
               p_time_remaining := Some (or_default (timeRemaining b) 0);
               p_level_breakdown :=
                 Some (JSON_stringify
                         (or_default (levelBreakdown b) empty_object));
               p_ip_address := bind clientIP;
               p_session_id := bind (sessionId b) |} with
    | SqliteError _ =>
        (db, mkResponse 500 (Failure "Error saving score to database."))
    | Done db' =>
        (db', mkResponse 200
                (Success {| message := "Score submitted successfully!";
                            scoreId := last_insert_rowid db';
                            rank := None |}))
    end.

(** [GET /api/leaderboard] *)
Record leaderboard_payload := mkLeaderboard {
  leaderboard : list (LeaderboardRow.t object);
  total : Z
}.

Definition parse_breakdown (r : LeaderboardRow.t (option string))
  : LeaderboardRow.t object :=
  LeaderboardRow.mk
    (LeaderboardRow.rank r) (LeaderboardRow.registration_number r)
    (LeaderboardRow.student_name r) (LeaderboardRow.final_score r)
    (LeaderboardRow.levels_completed r) (LeaderboardRow.accuracy_rate r)
    (LeaderboardRow.time_remaining r)
    (JSON_parse (or_default (of_sql (LeaderboardRow.level_breakdown r)) "{}"))
    (LeaderboardRow.completion_time r).

Definition get_leaderboard (db : database) (query_limit query_offset : js string)
  : response (body leaderboard_payload) :=
  let limit := number_or (parseInt query_limit) 100 in
  let offset := number_or (parseInt query_offset) 0 in
  match must_be_int limit, must_be_int offset with
  | Some limit, Some offset =>
      let rows := leaderboardQuery db limit offset in
      let leaderboard := map parse_breakdown rows in
      mkResponse 200
        (Success {| leaderboard := leaderboard;
                    total := Z.of_nat (List.length leaderboard) |})
  | _, _ => mkResponse 500 (Failure "Error fetching leaderboard.")
  end.

(** A run of submissions, each with the clock of its arrival. *)
Definition submit_all (db : database) (calls : list (Z * submit_request))
  : database :=
  fold_left (fun db call => fst (submit_score db (fst call) (snd call)))
            calls db.

(** [GET /api/admin/backup]; [now] stands for [new Date().toISOString()]. *)
Definition parse_backup_row (r : BackupRow.t (option string))
  : BackupRow.t object :=
  BackupRow.mk
    (BackupRow.id r) (BackupRow.registration_number r)
    (BackupRow.student_name r) (BackupRow.final_score r)
    (BackupRow.levels_completed r) (BackupRow.accuracy_rate r)
    (BackupRow.time_remaining r)
    (JSON_parse (or_default (of_sql (BackupRow.level_breakdown r)) "{}"))
    (BackupRow.completion_time r) (BackupRow.ip_address r)
    (BackupRow.session_id r).

Definition get_backup (db : database) (now : Z)
    (query_key header_key : js string)
  : response (backup_body (BackupRow.t object)) :=
  let adminKey := js_or query_key header_key in
  if negb (is_admin adminKey) then
    mkResponse 403 (BackupRefused "Unauthorized. Admin key required.")
  else
    let rows := backupQuery db in
    mkResponse 200
      (Backup now (Z.of_nat (List.length rows)) (map parse_backup_row rows)).

(** The requests that change the store, and a run of them. *)
Inductive request : Type :=
| SubmitScore (now : Z) (req : submit_request)
| ClearAll (now : Z) (query_key header_key : js string)
| ClearStudent (query_key header_key query_reg body_reg : js string).

Definition serve (db : database) (r : request) : database :=
  match r with
  | SubmitScore now req => fst (submit_score db now req)
  | ClearAll now query_key header_key =>
      fst (delete_clear_all db now query_key header_key)
  | ClearStudent query_key header_key query_reg body_reg =>
      fst (delete_clear_student db query_key header_key query_reg body_reg)
  end.

Definition serve_all (db : database) (rs : list request) : database :=
  fold_left serve rs db.

(** ** Vocabulary of the properties *)

(** The key and score of a request that passes validation and the NOT NULL
    constraints; these are the requests answered 200
    ([accepted_iff_status_200]). *)
Definition accepted (req : submit_request) : option (string * Z) :=
  match registrationNumber (req_body req), finalScore (req_body req) with
  | Val k, Val s => if String.eqb k "" then None else Some (k, s)
  | _, _ => None
  end.

(** The scores the accepted submissions for [k] carry, in arrival order. *)
Definition scores_for (k : string) (calls : list (Z * submit_request)) : list Z :=
  flat_map (fun call =>
              match accepted (snd call) with
              | Some (k', s) => if String.eqb k' k then [s] else []
              | None => []
              end) calls.

(** The row a submission leaves under its key. *)
Definition merged_row (db : database) (now : Z) (req : submit_request)
    (k : string) (s : Z) : row :=
  let b := req_body req in
  let excluded :=
    {| id := Z.max (sqlite_sequence db) (max_rowid (tournament_scores db)) + 1;
       registration_number := k;
       student_name := Some (or_default (studentName b) "Anonymous");
       final_score := s;
       levels_completed := or_default (levelsCompleted b) 0;
       accuracy_rate := or_default (accuracyRate b) 0%Q;
       time_remaining := or_default (timeRemaining b) 0;
       level_breakdown :=
         Some (JSON_stringify (or_default (levelBreakdown b) empty_object));
       completion_time := now;
       ip_address := bind (js_or (ip req) (remoteAddress req));
       session_id := bind (sessionId b) |} in
  match lookup k db with
  | Some r => do_update now excluded r
  | None => excluded
  end.

(** The stored best score after merging the scores [l] one by one. *)
Definition merge_scores (stored : option Z) (l : list Z) : option Z :=
  fold_left (fun o s => Some (match o with Some b => Z.max b s | None => s end))
            l stored.

(** The best score stored under [k], if [k] has a record. *)
Definition score_of (k : string) (db : database) : option Z :=
  option_map final_score (lookup k db).

(** [m] is the largest element of [l]. *)
Definition is_max (m : Z) (l : list Z) : Prop :=
  In m l /\ Forall (fun s => s <= m) l.

(** The request of the scenarios: a key, a score, a number of levels, nothing
    else. *)
Definition plain_request (reg : string) (score : Z) (levels : js Z)
  : submit_request :=
  {| req_body :=
       {| registrationNumber := Val reg;
          studentName := Undefined;
          finalScore := Val score;
          levelsCompleted := levels;
          accuracyRate := Undefined;
          timeRemaining := Undefined;
          levelBreakdown := Undefined;
          sessionId := Undefined |};
     ip := Undefined;
     remoteAddress := Undefined |}.

(** The key is missing (absent or null) or the empty string. *)
Definition missing_or_empty (reg : js string) : Prop :=
  reg = Undefined \/ reg = Null \/ reg = Val "".

(** [before] as a relation. *)
Definition key_le (k1 k2 : Z * Z) : Prop := before k1 k2 = true.

(** [x] may stand before [y] in the order of their keys. *)
Definition in_order {A : Type} (key : A -> Z * Z) (x y : A) : Prop :=
  key_le (key x) (key y).

(** The rows a leaderboard response lists. *)
Definition leaderboard_of (resp : response (body leaderboard_payload))
  : list (LeaderboardRow.t object) :=
  match json resp with
  | Success lb => leaderboard lb
  | Failure _ => []
  end.

(** The UNIQUE constraint on [registration_number]. *)
Definition wf (db : database) : Prop :=
  NoDup (map registration_number (tournament_scores db)).

(** The 1-based place of the first row of [l] that carries the key [k]. *)
Fixpoint position_from (n : Z) (k : string) (l : list (LeaderboardRow.t object))
  : option Z :=
  match l with
  | [] => None
  | e :: l' =>
      if String.eqb (LeaderboardRow.registration_number e) k then Some n
      else position_from (n + 1) k l'
  end.

Definition position_of (k : string) (l : list (LeaderboardRow.t object))
  : option Z :=
  position_from 1 k l.

(** The row an accepted submission offers to the table (the [excluded] row
    of the upsert). *)
Definition incoming_row (db : database) (now : Z) (req : submit_request)
    (k : string) (s : Z) : row :=
  let b := req_body req in
  {| id := Z.max (sqlite_sequence db) (max_rowid (tournament_scores db)) + 1;
     registration_number := k;
     student_name := Some (or_default (studentName b) "Anonymous");
     final_score := s;
     levels_completed := or_default (levelsCompleted b) 0;
     accuracy_rate := or_default (accuracyRate b) 0%Q;
     time_remaining := or_default (timeRemaining b) 0;
     level_breakdown :=
       Some (JSON_stringify (or_default (levelBreakdown b) empty_object));
     completion_time := now;
     ip_address := bind (js_or (ip req) (remoteAddress req));
     session_id := bind (sessionId b) |}.

(** Row ids grow along the table and none exceeds the AUTOINCREMENT
    counter. *)
Definition ids_fresh (db : database) : Prop :=
  StronglySorted Z.lt (map id (tournament_scores db)) /\
  Forall (fun r => id r <= sqlite_sequence db) (tournament_scores db).

(** The key that unlocks the administrative requests: the one of the query
    string when it is truthy, else the one of the header. *)
Definition authorized (query_key header_key : js string) : Prop :=
  query_key = Val "IEEE2025ADMIN" \/
  (is_truthy query_key = false /\ header_key = Val "IEEE2025ADMIN").

(** The rows a backup response exports. *)
Definition backup_data (resp : response (backup_body (BackupRow.t object)))
  : list (BackupRow.t object) :=
  match json resp with
  | Backup _ _ data => data
  | BackupRefused _ => []
  end.

(** The rank a rank response reports. *)
Definition rank_of (resp : response (body rank_payload)) : option Z :=
  match json resp with
  | Success p => Some (RankRow.rank (student p))
  | Failure _ => None
  end.

(** The limit and the offset the leaderboard handler hands to the query. *)
Definition bound_limit (query_limit : js string) : option Z :=
  must_be_int (number_or (parseInt query_limit) 100).

Definition bound_offset (query_offset : js string) : option Z :=
  must_be_int (number_or (parseInt query_offset) 0).

(** The offset of a page that is listed (0 stands in when the offset cannot
    be bound and nothing is listed). *)
Definition effective_offset (query_offset : js string) : Z :=
  match bound_offset query_offset with
  | Some offset => offset
  | None => 0
  end.

(** The order of the leaderboard between two records: [r'] comes strictly
    before [r] when it has the higher best score, or the same best score and
    a strictly earlier last submission. *)
Definition strictly_better (r' r : row) : bool :=
  (final_score r <? final_score r')
  || ((final_score r' =? final_score r)
      && (completion_time r' <? completion_time r)).

(** [r'] does not come after [r]: it has the higher best score, or the same
    best score and a last submission that is not later. *)
Definition not_worse (r' r : row) : bool :=
  (final_score r <? final_score r')
  || ((final_score r' =? final_score r)
      && (completion_time r' <=? completion_time r)).

(** * Properties *)

(** ** The upsert on the list of rows *)

Lemma has_key_true (k : string) (r : row) :
  has_key k r = true <-> registration_number r = k.
Proof. unfold has_key. apply String.eqb_eq. Qed.

Lemma existsb_find_none {A} (f : A -> bool) (l : list A) :
  existsb f l = false <-> find f l = None.
Proof.
  induction l as [|x l IH]; simpl; [split; reflexivity|].
  destruct (f x); simpl; [split; discriminate | exact IH].
Qed.

Lemma find_update_same (k : string) (f : row -> row) (rows : list row) :
  (forall r, has_key k (f r) = has_key k r) ->
  find (has_key k) (map (fun r => if has_key k r then f r else r) rows)
  = option_map f (find (has_key k) rows).
Proof.
  intros Hf. induction rows as [|r rows IH]; simpl; [reflexivity|].
  destruct (has_key k r) eqn:E.
  - now rewrite Hf, E.
  - now rewrite E.
Qed.

Lemma find_update_other (k k' : string) (f : row -> row) (rows : list row) :
  k' <> k ->
  (forall r, has_key k' (f r) = has_key k' r) ->
  find (has_key k') (map (fun r => if has_key k r then f r else r) rows)
  = find (has_key k') rows.
Proof.
  intros Hne Hf. induction rows as [|r rows IH]; simpl; [reflexivity|].
  destruct (has_key k r) eqn:E.
  - rewrite Hf. apply has_key_true in E.
    assert (has_key k' r = false) as ->; [|exact IH].
    unfold has_key. rewrite E. apply String.eqb_neq. congruence.
  - destruct (has_key k' r); [reflexivity | exact IH].
Qed.

Lemma find_insert_same (k : string) (x : row) (rows : list row) :
  find (has_key k) rows = None -> has_key k x = true ->
  find (has_key k) (rows ++ [x])%list = Some x.
Proof.
  intros Hn Hx. induction rows as [|r rows IH]; simpl in *.
  - now rewrite Hx.
  - destruct (has_key k r); [discriminate | auto].
Qed.

Lemma find_insert_other (k' : string) (x : row) (rows : list row) :
  has_key k' x = false ->
  find (has_key k') (rows ++ [x])%list = find (has_key k') rows.
Proof.
  intros Hx. induction rows as [|r rows IH]; simpl.
  - now rewrite Hx.
  - destruct (has_key k' r); [reflexivity | exact IH].
Qed.

(** The CASE of the update clause is the maximum of the two scores. *)
Lemma case_when_max (incoming stored : Z) :
  (if incoming >? stored then incoming else stored) = Z.max stored incoming.
Proof. destruct (Z.gtb_spec incoming stored); lia. Qed.

(** ** What a submission does *)

Lemma submit_rejected (db : database) (now : Z) (req : submit_request) :
  accepted req = None ->
  fst (submit_score db now req) = db /\
  status (snd (submit_score db now req)) <> 200 /\
  success (json (snd (submit_score db now req))) = false.
Proof.
  unfold accepted, submit_score. intros H.
  destruct (registrationNumber (req_body req)) as [| |k] eqn:Ek; simpl;
    try (repeat split; [discriminate]).
  destruct (finalScore (req_body req)) as [| |s] eqn:Es; simpl.
  - rewrite orb_true_r. simpl. repeat split; discriminate.
  - unfold truthy, string_truthy.
    destruct (String.eqb k ""); simpl; repeat split; discriminate.
  - unfold truthy, string_truthy.
    destruct (String.eqb k ""); [|discriminate].
    simpl. repeat split; discriminate.
Qed.

Lemma submit_accepted (db : database) (now : Z) (req : submit_request)
    (k : string) (s : Z) :
  accepted req = Some (k, s) ->
  status (snd (submit_score db now req)) = 200 /\
  success (json (snd (submit_score db now req))) = true /\
  lookup k (fst (submit_score db now req)) = Some (merged_row db now req k s) /\
  (forall k', k' <> k ->
     lookup k' (fst (submit_score db now req)) = lookup k' db).
Proof.
  unfold accepted, submit_score, merged_row, lookup. intros H.
  destruct (registrationNumber (req_body req)) as [| |k0]; try discriminate.
  destruct (finalScore (req_body req)) as [| |s0]; try discriminate.
  simpl. unfold truthy, string_truthy.
  destruct (String.eqb k0 "") eqn:Ek; [discriminate|].
  injection H as -> ->. simpl. unfold upsertQuery. simpl.
  destruct (existsb (has_key k) (tournament_scores db)) eqn:Ex; simpl.
  - repeat split.
    + rewrite find_update_same by reflexivity.
      destruct (find (has_key k) (tournament_scores db)) eqn:Ef; [reflexivity|].
      apply existsb_find_none in Ef. congruence.
    + intros k' Hne. now apply find_update_other.
  - apply existsb_find_none in Ex. repeat split.
    + rewrite Ex. apply find_insert_same; [exact Ex|].
      unfold has_key. simpl. apply String.eqb_refl.
    + intros k' Hne. apply find_insert_other.
      unfold has_key. simpl. apply String.eqb_neq. congruence.
Qed.

(** ** Best score over a run of submissions *)

Lemma score_of_submit (db : database) (now : Z) (req : submit_request)
    (k : string) :
  score_of k (fst (submit_score db now req))
  = merge_scores (score_of k db) (scores_for k [(now, req)]).
Proof.
  unfold scores_for, score_of. simpl.
  destruct (accepted req) as [[k' s]|] eqn:Ea.
  - destruct (submit_accepted db now req k' s Ea) as (_ & _ & Hk & Hother).
    destruct (String.eqb_spec k' k) as [->|Hne]; simpl.
    + rewrite Hk. unfold merged_row.
      destruct (lookup k db); simpl; [|reflexivity].
      now rewrite case_when_max.
    + rewrite Hother by congruence. reflexivity.
  - destruct (submit_rejected db now req Ea) as (-> & _). reflexivity.
Qed.

Lemma score_of_submit_all (calls : list (Z * submit_request)) (k : string) :
  forall db,
    score_of k (submit_all db calls)
    = merge_scores (score_of k db) (scores_for k calls).
Proof.
  induction calls as [|[now req] calls IH]; intros db; [reflexivity|].
  change (submit_all db ((now, req) :: calls))
    with (submit_all (fst (submit_score db now req)) calls).
  rewrite IH, score_of_submit.
  replace (scores_for k ((now, req) :: calls))
    with (scores_for k [(now, req)] ++ scores_for k calls)%list.
  - unfold merge_scores. now rewrite fold_left_app.
  - unfold scores_for. simpl. now rewrite app_nil_r.
Qed.

Lemma merge_scores_some (l : list Z) :
  forall b, merge_scores (Some b) l = Some (fold_left Z.max l b).
Proof.
  induction l as [|x l IH]; intros b; [reflexivity|].
  simpl. apply IH.
Qed.

Lemma fold_max_bounds (l : list Z) :
  forall b, b <= fold_left Z.max l b /\
            Forall (fun s => s <= fold_left Z.max l b) l /\
            (fold_left Z.max l b = b \/ In (fold_left Z.max l b) l).
Proof.
  induction l as [|x l IH]; intros b; simpl.
  - split; [lia | split; [constructor | now left]].
  - destruct (IH (Z.max b x)) as (Hb & Hall & Hin).
    split; [lia | split; [constructor; [lia | exact Hall] |]].
    destruct Hin as [Hm | Hm]; [|right; now right].
    destruct (Z.max_spec b x) as [[_ Hx] | [_ Hx]]; rewrite Hx in Hm.
    + right. left. congruence.
    + left. congruence.
Qed.

Lemma merge_scores_none_max (l : list Z) (m : Z) :
  merge_scores None l = Some m -> is_max m l.
Proof.
  destruct l as [|x l]; [discriminate|].
  simpl. change (merge_scores (Some x) l = Some m -> is_max m (x :: l)).
  rewrite merge_scores_some. intros [= <-].
  destruct (fold_max_bounds l x) as (Hb & Hall & Hin).
  split.
  - destruct Hin as [-> | Hin]; [now left | now right].
  - constructor; assumption.
Qed.

Lemma merge_scores_perm (l l' : list Z) :
  Permutation l l' -> forall o, merge_scores o l = merge_scores o l'.
Proof.
  induction 1 as [|x l l' _ IH|x y l|l l' l'' _ IH1 _ IH2]; intros o.
  - reflexivity.
  - simpl. apply IH.
  - simpl. f_equal. destruct o; f_equal; lia.
  - now rewrite IH1.
Qed.

Lemma scores_for_perm (k : string) (calls calls' : list (Z * submit_request)) :
  Permutation calls calls' ->
  Permutation (scores_for k calls) (scores_for k calls').
Proof. apply Permutation_flat_map. Qed.

Lemma score_never_decreases (db : database) (now : Z) (req : submit_request)
    (k : string) (r : row) :
  lookup k db = Some r ->
  exists r', lookup k (fst (submit_score db now req)) = Some r' /\
             final_score r <= final_score r'.
Proof.
  intros Hr. destruct (accepted req) as [[k' s]|] eqn:Ea.
  - destruct (submit_accepted db now req k' s Ea) as (_ & _ & Hk & Hother).
    destruct (String.eqb_spec k' k) as [->|Hne].
    + rewrite Hk. eexists; split; [reflexivity|].
      unfold merged_row. rewrite Hr. simpl. rewrite case_when_max. lia.
    + rewrite Hother by congruence. exists r. split; [exact Hr | lia].
  - destruct (submit_rejected db now req Ea) as (-> & _).
    exists r. split; [exact Hr | lia].
Qed.

(** C1. Monotonic merge: starting from a store that holds no record for the
    key [k], after any run of submissions (for any keys, accepted or not) in
    which at least one accepted submission is for [k], the record of [k]
    holds as its best score the largest of the scores submitted for [k];
    submitting the same calls in any other order leaves the same best score;
    and no single submission lowers the best score of a record. *)
Theorem best_score_is_max (db : database) (calls : list (Z * submit_request))
    (k : string) :
  lookup k db = None ->
  scores_for k calls <> [] ->
  (exists r, lookup k (submit_all db calls) = Some r /\
             is_max (final_score r) (scores_for k calls)) /\
  (forall calls', Permutation calls calls' ->
     score_of k (submit_all db calls') = score_of k (submit_all db calls)) /\
  (forall db0 now req r, lookup k db0 = Some r ->
     exists r', lookup k (fst (submit_score db0 now req)) = Some r' /\
                final_score r <= final_score r').
Proof.
  intros Hnone Hne. split; [|split].
  - pose proof (score_of_submit_all calls k db) as H.
    unfold score_of in H. rewrite Hnone in H. simpl in H.
    destruct (scores_for k calls) as [|x l] eqn:El; [congruence|].
    destruct (lookup k (submit_all db calls)) as [r|].
    + exists r. split; [reflexivity|].
      apply merge_scores_none_max. now rewrite <- H.
    + simpl in H. change (None = merge_scores (Some x) l) in H.
      rewrite merge_scores_some in H. discriminate.
  - intros calls' Hp. rewrite !score_of_submit_all.
    apply merge_scores_perm. apply Permutation_sym. now apply scores_for_perm.
  - intros db0 now req r. apply score_never_decreases.
Qed.

(** ** Overwrite on merge *)

Lemma status_200_accepted (db : database) (now : Z) (req : submit_request) :
  status (snd (submit_score db now req)) = 200 ->
  exists k s, accepted req = Some (k, s).
Proof.
  intros H. destruct (accepted req) as [[k s]|] eqn:Ea; [eauto|].
  destruct (submit_rejected db now req Ea) as (_ & Hs & _). contradiction.
Qed.

Lemma accepted_iff_status_200 (db : database) (now : Z) (req : submit_request) :
  status (snd (submit_score db now req)) = 200 <->
  exists k s, accepted req = Some (k, s).
Proof.
  split; [apply status_200_accepted|].
  intros (k & s & Ha). now destruct (submit_accepted db now req k s Ha).
Qed.

Lemma accepted_fields (req : submit_request) (k : string) (s : Z) :
  accepted req = Some (k, s) ->
  registrationNumber (req_body req) = Val k /\ k <> "" /\
  finalScore (req_body req) = Val s.
Proof.
  unfold accepted.
  destruct (registrationNumber (req_body req)) as [| |k0]; try discriminate.
  destruct (finalScore (req_body req)) as [| |s0]; try discriminate.
  destruct (String.eqb_spec k0 ""); [discriminate|].
  intros [= <- <-]. auto.
Qed.

(** C2. Overwrite on merge: after two successful submissions for the key [k]
    the stored levels, accuracy, time and breakdown are those of the second
    submission (an absent or falsy field counting as its default), whatever
    the two scores, while the best score is the largest of the stored score
    and the two submitted; and the scenario of the specification: A1 with
    score 500 and 3 levels, then A1 with score 300 and 1 level, on an empty
    store, leaves best score 500 and 1 level. *)
Theorem overwrite_on_merge (db : database) (now1 now2 : Z)
    (req1 req2 : submit_request) (k : string) :
  registrationNumber (req_body req1) = Val k ->
  registrationNumber (req_body req2) = Val k ->
  status (snd (submit_score db now1 req1)) = 200 ->
  status (snd (submit_score (fst (submit_score db now1 req1)) now2 req2)) = 200 ->
  (exists r s1 s2,
      finalScore (req_body req1) = Val s1 /\
      finalScore (req_body req2) = Val s2 /\
      lookup k (submit_all db [(now1, req1); (now2, req2)]) = Some r /\
      levels_completed r = or_default (levelsCompleted (req_body req2)) 0 /\
      accuracy_rate r = or_default (accuracyRate (req_body req2)) 0%Q /\
      time_remaining r = or_default (timeRemaining (req_body req2)) 0 /\
      level_breakdown r
      = Some (JSON_stringify
                (or_default (levelBreakdown (req_body req2)) empty_object)) /\
      final_score r
      = match score_of k db with
        | Some b => Z.max (Z.max b s1) s2
        | None => Z.max s1 s2
        end) /\
  (forall t1 t2,
      option_map (fun r => (final_score r, levels_completed r))
        (lookup "A1"
           (submit_all empty_database
              [(t1, plain_request "A1" 500 (Val 3));
               (t2, plain_request "A1" 300 (Val 1))]))
      = Some (500, 1)).
Proof.
  intros Hk1 Hk2 H1 H2. split; [|reflexivity].
  apply status_200_accepted in H1 as (k1 & s1 & Ha1).
  apply status_200_accepted in H2 as (k2 & s2 & Ha2).
  destruct (accepted_fields _ _ _ Ha1) as (Hr1 & _ & Hs1).
  destruct (accepted_fields _ _ _ Ha2) as (Hr2 & _ & Hs2).
  assert (k1 = k) as -> by congruence.
  assert (k2 = k) as -> by congruence.
  set (db1 := fst (submit_score db now1 req1)).
  destruct (submit_accepted db now1 req1 k s1 Ha1) as (_ & _ & Hl1 & _).
  destruct (submit_accepted db1 now2 req2 k s2 Ha2) as (_ & _ & Hl2 & _).
  exists (merged_row db1 now2 req2 k s2), s1, s2.
  split; [exact Hs1|]. split; [exact Hs2|]. split; [exact Hl2|].
  unfold merged_row at 1 2 3 4 5. fold db1 in Hl1. rewrite Hl1. simpl.
  repeat (split; [reflexivity|]).
  rewrite case_when_max. unfold merged_row, score_of.
  destruct (lookup k db); simpl; [|reflexivity].
  now rewrite case_when_max.
Qed.

(** ** Validation *)

Lemma not_truthy_iff (reg : js string) :
  is_truthy reg = false <-> missing_or_empty reg.
Proof.
  unfold missing_or_empty. destruct reg as [| |k]; simpl.
  - split; [now left | reflexivity].
  - split; [now right; left | reflexivity].
  - unfold truthy, string_truthy. destruct (String.eqb_spec k "") as [->|Hne].
    + split; [now right; right | reflexivity].
    + split; [discriminate|]. intros [H | [H | H]]; congruence.
Qed.

Lemma is_undefined_iff {A} (x : js A) : is_undefined x = true <-> x = Undefined.
Proof. destruct x; simpl; split; congruence. Qed.

Lemma status_400_iff (db : database) (now : Z) (req : submit_request) :
  status (snd (submit_score db now req)) = 400 <->
  negb (is_truthy (registrationNumber (req_body req)))
  || is_undefined (finalScore (req_body req)) = true.
Proof.
  unfold submit_score.
  destruct (negb (is_truthy (registrationNumber (req_body req)))
            || is_undefined (finalScore (req_body req))); simpl.
  - split; reflexivity.
  - destruct (upsertQuery _ _ _); simpl; split; discriminate.
Qed.

(** C4. Validation: a submission is answered 400 exactly when its
    registration number is missing or empty or its final score is absent;
    such a submission leaves the store as it was; and a submission with a
    valid key and the score 0 is accepted and merged like any other score. *)
Theorem submit_validation (db : database) (now : Z) (req : submit_request) :
  (status (snd (submit_score db now req)) = 400 <->
   missing_or_empty (registrationNumber (req_body req)) \/
   finalScore (req_body req) = Undefined) /\
  (status (snd (submit_score db now req)) = 400 ->
   fst (submit_score db now req) = db) /\
  (forall k, registrationNumber (req_body req) = Val k -> k <> "" ->
             finalScore (req_body req) = Val 0 ->
     status (snd (submit_score db now req)) = 200 /\
     success (json (snd (submit_score db now req))) = true /\
     exists r, lookup k (fst (submit_score db now req)) = Some r /\
               final_score r = match score_of k db with
                               | Some b => Z.max b 0
                               | None => 0
                               end).
Proof.
  split; [|split].
  - rewrite status_400_iff, orb_true_iff, negb_true_iff.
    now rewrite not_truthy_iff, is_undefined_iff.
  - intros H. apply status_400_iff in H. unfold submit_score. now rewrite H.
  - intros k Hk Hne Hs.
    assert (accepted req = Some (k, 0)) as Ha.
    { unfold accepted. rewrite Hk, Hs.
      destruct (String.eqb_spec k ""); congruence. }
    destruct (submit_accepted db now req k 0 Ha) as (H200 & Hok & Hl & _).
    split; [exact H200|]. split; [exact Hok|].
    eexists. split; [exact Hl|].
    unfold merged_row, score_of. destruct (lookup k db); simpl; [|reflexivity].
    apply case_when_max.
Qed.

(** C10. With a valid registration number, a submission is answered 400 only
    when its final score is absent; a final score that is null passes the
    validation, is refused by the NOT NULL constraint of the table and is
    answered 500 with the storage error message, the store unchanged. *)
Theorem null_score_is_storage_error (db : database) (now : Z)
    (req : submit_request) (k : string) :
  registrationNumber (req_body req) = Val k -> k <> "" ->
  (status (snd (submit_score db now req)) = 400 <->
   finalScore (req_body req) = Undefined) /\
  (finalScore (req_body req) = Null ->
   submit_score db now req
   = (db, mkResponse 500 (Failure "Error saving score to database."))).
Proof.
  intros Hk Hne.
  assert (is_truthy (registrationNumber (req_body req)) = true) as Ht.
  { rewrite Hk. simpl. unfold truthy, string_truthy.
    destruct (String.eqb_spec k ""); [contradiction | reflexivity]. }
  split.
  - rewrite status_400_iff, Ht. simpl. apply is_undefined_iff.
  - intros Hs. unfold submit_score. rewrite Ht, Hs, Hk. reflexivity.
Qed.

(** ** The response to a submission *)

Lemma submit_accepted_response (db : database) (now : Z) (req : submit_request)
    (k : string) (s : Z) :
  accepted req = Some (k, s) ->
  snd (submit_score db now req)
  = mkResponse 200
      (Success {| message := "Score submitted successfully!";
                  scoreId := last_insert_rowid (fst (submit_score db now req));
                  rank := None |}) /\
  (lookup k db = None ->
   last_insert_rowid (fst (submit_score db now req))
   = id (merged_row db now req k s)).
Proof.
  unfold accepted, submit_score, merged_row, lookup. intros H.
  destruct (registrationNumber (req_body req)) as [| |k0]; try discriminate.
  destruct (finalScore (req_body req)) as [| |s0]; try discriminate.
  simpl. unfold truthy, string_truthy.
  destruct (String.eqb k0 "") eqn:Ek; [discriminate|].
  injection H as -> ->. simpl. unfold upsertQuery. simpl.
  destruct (existsb (has_key k) (tournament_scores db)) eqn:Ex; simpl.
  - split; [reflexivity|]. intros Hn.
    apply existsb_find_none in Hn. congruence.
  - split; [reflexivity|]. intros ->. reflexivity.
Qed.

(** C8, as the code has it. A successful submission is answered with the
    fixed message, [scoreId] and a null [rank], and nothing else; when the
    submission created the record of its key, [scoreId] is the row id of
    that record. *)
Theorem submit_response_identity (db : database) (now : Z)
    (req : submit_request) :
  status (snd (submit_score db now req)) = 200 ->
  exists k s sid,
    accepted req = Some (k, s) /\
    json (snd (submit_score db now req))
    = Success {| message := "Score submitted successfully!";
                 scoreId := sid;
                 rank := None |} /\
    (lookup k db = None ->
     exists r, lookup k (fst (submit_score db now req)) = Some r /\ id r = sid).
Proof.
  intros H. apply status_200_accepted in H as (k & s & Ha).
  destruct (submit_accepted_response db now req k s Ha) as (Hresp & Hid).
  destruct (submit_accepted db now req k s Ha) as (_ & _ & Hl & _).
  exists k, s, (last_insert_rowid (fst (submit_score db now req))).
  split; [exact Ha|]. split; [now rewrite Hresp|].
  intros Hn. eexists. split; [exact Hl|]. symmetry. now apply Hid.
Qed.

(** ** Statistics *)

(** C5. Statistics of an empty store: the count is 0 and the maximum and the
    three averages are NULL; the request is answered 200. *)
Theorem stats_on_empty_store (db : database) :
  tournament_scores db = [] ->
  get_stats db
  = mkResponse 200
      (Success {| stats := StatsRow.mk 0 None None None None |}).
Proof.
  intros H. unfold get_stats, statsQuery. now rewrite H.
Qed.

(** ** Ordering *)

Lemma before_iff (k1 k2 : Z * Z) :
  before k1 k2 = true <->
  fst k2 < fst k1 \/ (fst k1 = fst k2 /\ snd k1 <= snd k2).
Proof.
  unfold before.
  rewrite orb_true_iff, andb_true_iff, Z.ltb_lt, Z.eqb_eq, Z.leb_le.
  reflexivity.
Qed.

Lemma before_total (k1 k2 : Z * Z) :
  before k1 k2 = false -> before k2 k1 = true.
Proof.
  intros H. apply before_iff.
  assert (~ (fst k2 < fst k1 \/ (fst k1 = fst k2 /\ snd k1 <= snd k2))) as Hn.
  { rewrite <- before_iff. congruence. }
  lia.
Qed.

Lemma before_trans (k1 k2 k3 : Z * Z) :
  before k1 k2 = true -> before k2 k3 = true -> before k1 k3 = true.
Proof. rewrite !before_iff. lia. Qed.

Section OrderByFacts.
Context {A : Type} (key : A -> Z * Z).

Lemma in_order_trans (x y z : A) : in_order key x y -> in_order key y z -> in_order key x z.
Proof. apply before_trans. Qed.

Lemma insert_sorted_perm (x : A) (l : list A) :
  Permutation (insert_sorted key x l) (x :: l).
Proof.
  induction l as [|y l IH]; simpl; [reflexivity|].
  destruct (before (key x) (key y)); [reflexivity|].
  rewrite IH. apply perm_swap.
Qed.

Lemma order_by_perm (l : list A) : Permutation (order_by key l) l.
Proof.
  induction l as [|x l IH]; simpl; [reflexivity|].
  rewrite insert_sorted_perm. now constructor.
Qed.

Lemma insert_sorted_sorted (x : A) (l : list A) :
  Sorted (in_order key) l -> Sorted (in_order key) (insert_sorted key x l).
Proof.
  induction 1 as [|y l Hs IH Hhd]; simpl.
  - repeat constructor.
  - destruct (before (key x) (key y)) eqn:E.
    + constructor; [now constructor | now constructor].
    + constructor; [exact IH|].
      apply before_total in E.
      destruct Hhd as [|z l Hyz]; simpl.
      * now constructor.
      * destruct (before (key x) (key z)); now constructor.
Qed.

Lemma order_by_sorted (l : list A) : Sorted (in_order key) (order_by key l).
Proof.
  induction l as [|x l IH]; simpl; [constructor|].
  now apply insert_sorted_sorted.
Qed.

Lemma order_by_strongly_sorted (l : list A) :
  StronglySorted (in_order key) (order_by key l).
Proof.
  apply Sorted_StronglySorted; [|apply order_by_sorted].
  intros x y z. apply in_order_trans.
Qed.

(** Ordering what is in order already changes nothing. *)
Lemma order_by_id (l : list A) : Sorted (in_order key) l -> order_by key l = l.
Proof.
  induction 1 as [|x l Hs IH Hhd]; simpl; [reflexivity|].
  rewrite IH. destruct Hhd as [|y l Hxy]; simpl; [reflexivity|].
  unfold in_order, key_le in Hxy. now rewrite Hxy.
Qed.

Lemma strongly_sorted_nth (R : A -> A -> Prop) (l : list A) :
  StronglySorted R l ->
  forall i j a b, (i < j)%nat ->
    nth_error l i = Some a -> nth_error l j = Some b -> R a b.
Proof.
  induction 1 as [|x l Hs IH Hall]; intros i j a b Hij Ha Hb.
  - destruct i; discriminate.
  - destruct j as [|j]; [lia|]. simpl in Hb.
    destruct i as [|i]; simpl in Ha.
    + injection Ha as <-. rewrite Forall_forall in Hall.
      apply Hall. eapply nth_error_In; eauto.
    + apply (IH i j); [lia | assumption | assumption].
Qed.

End OrderByFacts.

(** ** Numbering and paging *)

Lemma row_number_nth {A} (l : list A) :
  forall n i,
    nth_error (row_number n l) i
    = option_map (fun x => (n + Z.of_nat i, x)) (nth_error l i).
Proof.
  induction l as [|x l IH]; intros n i.
  - destruct i; reflexivity.
  - destruct i as [|i]; simpl.
    + now rewrite Z.add_0_r.
    + rewrite IH. destruct (nth_error l i); simpl; [|reflexivity].
      do 2 f_equal. lia.
Qed.

Lemma row_number_length {A} (l : list A) :
  forall n, List.length (row_number n l) = List.length l.
Proof. induction l as [|x l IH]; intros n; simpl; [reflexivity | now rewrite IH]. Qed.

Lemma row_number_in {A} (l : list A) :
  forall n nr, In nr (row_number n l) -> In (snd nr) l.
Proof.
  induction l as [|x l IH]; intros n nr; simpl; [intros []|].
  intros [<- | H]; [now left | right; eauto].
Qed.

Lemma row_number_sorted {A} (key : A -> Z * Z) (l : list A) :
  Sorted (in_order key) l ->
  forall n, Sorted (in_order (fun nr => key (snd nr))) (row_number n l).
Proof.
  induction 1 as [|x l Hs IH Hhd]; intros n; simpl; constructor.
  - apply IH.
  - destruct Hhd; simpl; now constructor.
Qed.

(** The outer ORDER BY of the leaderboard query finds the numbered rows in
    order already. *)
Lemma ranked_scores_in_order (db : database) :
  order_by (fun nr => sort_key (snd nr)) (ranked_scores db) = ranked_scores db.
Proof.
  apply order_by_id. apply row_number_sorted. apply order_by_sorted.
Qed.

Lemma leaderboardQuery_slice (db : database) (limit offset : Z) :
  leaderboardQuery db limit offset
  = map select_columns (limit_offset limit offset (ranked_scores db)).
Proof. unfold leaderboardQuery. now rewrite ranked_scores_in_order. Qed.

Lemma limit_offset_nth {A} (limit offset : Z) (l : list A) (i : nat) (x : A) :
  nth_error (limit_offset limit offset l) i = Some x ->
  nth_error l (Z.to_nat offset + i) = Some x.
Proof.
  unfold limit_offset. destruct (limit <? 0).
  - now rewrite nth_error_skipn.
  - rewrite nth_error_firstn. destruct (i <? Z.to_nat limit)%nat; [|discriminate].
    now rewrite nth_error_skipn.
Qed.

(** The [i]-th row of a page is the row at place [offset + i] of the whole
    ordered table, and its rank is that place counted from 1. *)
Lemma leaderboardQuery_nth (db : database) (limit offset : Z) (i : nat)
    (e : LeaderboardRow.t (option string)) :
  nth_error (leaderboardQuery db limit offset) i = Some e ->
  exists r,
    nth_error (order_by sort_key (tournament_scores db)) (Z.to_nat offset + i)
    = Some r /\
    e = select_columns (1 + Z.of_nat (Z.to_nat offset + i), r).
Proof.
  rewrite leaderboardQuery_slice, nth_error_map. intros H.
  destruct (nth_error (limit_offset limit offset (ranked_scores db)) i)
    as [nr|] eqn:E; [|discriminate].
  injection H as <-. apply limit_offset_nth in E.
  unfold ranked_scores in E. rewrite row_number_nth in E.
  destruct (nth_error (order_by sort_key (tournament_scores db))
              (Z.to_nat offset + i)) as [r|]; [|discriminate].
  injection E as <-. now exists r.
Qed.

(** ** The leaderboard *)

Lemma get_leaderboard_cases (db : database) (query_limit query_offset : js string) :
  (exists limit offset,
      bound_limit query_limit = Some limit /\
      bound_offset query_offset = Some offset /\
      get_leaderboard db query_limit query_offset
      = mkResponse 200
          (Success
             {| leaderboard :=
                  map parse_breakdown (leaderboardQuery db limit offset);
                total :=
                  Z.of_nat
                    (List.length
                       (map parse_breakdown
                          (leaderboardQuery db limit offset))) |})) \/
  ((bound_limit query_limit = None \/ bound_offset query_offset = None) /\
   get_leaderboard db query_limit query_offset
   = mkResponse 500 (Failure "Error fetching leaderboard.")).
Proof.
  unfold get_leaderboard, bound_limit, bound_offset.
  destruct (must_be_int (number_or (parseInt query_limit) 100)) as [l|].
  - destruct (must_be_int (number_or (parseInt query_offset) 0)) as [o|].
    + left. now exists l, o.
    + right. split; [now right | reflexivity].
  - right. split; [now left | reflexivity].
Qed.

Lemma leaderboard_of_get (db : database) (query_limit query_offset : js string)
    (limit offset : Z) :
  bound_limit query_limit = Some limit ->
  bound_offset query_offset = Some offset ->
  leaderboard_of (get_leaderboard db query_limit query_offset)
  = map parse_breakdown (leaderboardQuery db limit offset).
Proof.
  unfold bound_limit, bound_offset, leaderboard_of, get_leaderboard.
  now intros -> ->.
Qed.

Lemma leaderboard_of_unbound (db : database)
    (query_limit query_offset : js string) :
  bound_limit query_limit = None \/ bound_offset query_offset = None ->
  get_leaderboard db query_limit query_offset
  = mkResponse 500 (Failure "Error fetching leaderboard.") /\
  leaderboard_of (get_leaderboard db query_limit query_offset) = [].
Proof.
  intros H.
  destruct (get_leaderboard_cases db query_limit query_offset)
    as [(l & o & Hl & Ho & _) | (_ & ->)].
  - destruct H as [H | H]; congruence.
  - split; reflexivity.
Qed.

Lemma leaderboard_of_nth (db : database) (query_limit query_offset : js string)
    (i : nat) (e : LeaderboardRow.t object) :
  nth_error (leaderboard_of (get_leaderboard db query_limit query_offset)) i
  = Some e ->
  exists r,
    nth_error (order_by sort_key (tournament_scores db))
      (Z.to_nat (effective_offset query_offset) + i) = Some r /\
    LeaderboardRow.rank e
    = 1 + Z.of_nat (Z.to_nat (effective_offset query_offset) + i) /\
    LeaderboardRow.registration_number e = registration_number r /\
    LeaderboardRow.final_score e = final_score r /\
    LeaderboardRow.completion_time e = completion_time r /\
    e = parse_breakdown
          (select_columns
             (1 + Z.of_nat (Z.to_nat (effective_offset query_offset) + i), r)).
Proof.
  destruct (get_leaderboard_cases db query_limit query_offset)
    as [(l & o & Hl & Ho & _) | (Hn & _)].
  - rewrite (leaderboard_of_get db _ _ l o Hl Ho), nth_error_map.
    unfold effective_offset. rewrite Ho. intros H.
    destruct (nth_error (leaderboardQuery db l o) i) as [e0|] eqn:E;
      [|discriminate].
    injection H as <-. apply leaderboardQuery_nth in E as (r & Hr & ->).
    exists r. repeat split. exact Hr.
  - destruct (leaderboard_of_unbound db _ _ Hn) as (_ & ->).
    destruct i; discriminate.
Qed.

(** C3, as the code orders. In any leaderboard page, of two rows with the
    same best score the one listed first has the smaller rank and a
    submission time that is not later; so a row submitted strictly earlier is
    listed, and ranked, before a row of the same score submitted later.  On an
    empty store, B1 with score 100 at [t1] and then C1 with score 100 at a
    later [t2] give B1 rank 1 and C1 rank 2.  (Rows equal in score and in
    time are not told apart by these two keys.) *)
Theorem leaderboard_tie_break (db : database)
    (query_limit query_offset : js string) (i j : nat)
    (a b : LeaderboardRow.t object) :
  nth_error (leaderboard_of (get_leaderboard db query_limit query_offset)) i
  = Some a ->
  nth_error (leaderboard_of (get_leaderboard db query_limit query_offset)) j
  = Some b ->
  LeaderboardRow.final_score a = LeaderboardRow.final_score b ->
  ((i < j)%nat ->
   LeaderboardRow.rank a < LeaderboardRow.rank b /\
   LeaderboardRow.completion_time a <= LeaderboardRow.completion_time b) /\
  (LeaderboardRow.completion_time a < LeaderboardRow.completion_time b ->
   (i < j)%nat /\ LeaderboardRow.rank a < LeaderboardRow.rank b) /\
  (forall t1 t2, t1 < t2 ->
     map (fun e => (LeaderboardRow.rank e, LeaderboardRow.registration_number e))
       (leaderboard_of
          (get_leaderboard
             (submit_all empty_database
                [(t1, plain_request "B1" 100 Undefined);
                 (t2, plain_request "C1" 100 Undefined)])
             Undefined Undefined))
     = [(1, "B1"); (2, "C1")]).
Proof.
  intros Ha Hb Hscore.
  apply leaderboard_of_nth in Ha as (ra & Hra & Haa & _ & Hsa & Hta & _).
  apply leaderboard_of_nth in Hb as (rb & Hrb & Hbb & _ & Hsb & Htb & _).
  set (off := Z.to_nat (effective_offset query_offset)) in *.
  pose proof (order_by_strongly_sorted sort_key (tournament_scores db)) as Hss.
  assert (forall i j ra rb, (i < j)%nat ->
            nth_error (order_by sort_key (tournament_scores db)) (off + i)
            = Some ra ->
            nth_error (order_by sort_key (tournament_scores db)) (off + j)
            = Some rb ->
            final_score ra = final_score rb ->
            completion_time ra <= completion_time rb) as Hord.
  { intros i' j' ra' rb' Hlt H1 H2 Heq.
    assert (in_order sort_key ra' rb') as Hin.
    { eapply (strongly_sorted_nth _ _ Hss (off + i')%nat (off + j')%nat);
        [lia | eassumption | eassumption]. }
    apply before_iff in Hin. unfold sort_key in Hin. simpl in Hin. lia. }
  assert (final_score ra = final_score rb) as Heq by congruence.
  split; [|split].
  - intros Hij. split; [lia|].
    rewrite Hta, Htb. now apply (Hord i j).
  - intros Hlt. rewrite Hta, Htb in Hlt.
    assert (i < j)%nat as Hij.
    { destruct (Nat.lt_trichotomy i j) as [H | [H | H]]; [exact H | |].
      - subst j. rewrite Hra in Hrb. injection Hrb as <-. lia.
      - pose proof (Hord j i rb ra H Hrb Hra (eq_sym Heq)). lia. }
    split; [exact Hij | lia].
  - intros t1 t2 Hlt.
    rewrite (leaderboard_of_get _ Undefined Undefined 100 0 eq_refl eq_refl).
    rewrite leaderboardQuery_slice.
    unfold ranked_scores. simpl. unfold before. simpl.
    destruct (Z.leb_spec t1 t2); [reflexivity | lia].
Qed.


(** ** One record per key *)

Lemma wf_empty : wf empty_database.
Proof. constructor. Qed.

Lemma wf_clear (db : database) : wf (clearQuery db).
Proof. constructor. Qed.

Lemma existsb_has_key_in (k : string) (rows : list row) :
  existsb (has_key k) rows = false -> ~ In k (map registration_number rows).
Proof.
  induction rows as [|r rows IH]; simpl; [intros _ []|].
  rewrite orb_false_iff. intros [Hr Hrows] [H | H]; [|now apply IH].
  unfold has_key in Hr. rewrite H, String.eqb_refl in Hr. discriminate.
Qed.

Lemma wf_submit (db : database) (now : Z) (req : submit_request) :
  wf db -> wf (fst (submit_score db now req)).
Proof.
  unfold wf, submit_score. intros Hwf.
  destruct (negb _ || _); [exact Hwf|].
  unfold upsertQuery; simpl.
  destruct (bind (registrationNumber (req_body req))) as [k|]; [|exact Hwf].
  destruct (bind (finalScore (req_body req))) as [s|]; [|exact Hwf].
  destruct (existsb (has_key k) (tournament_scores db)) eqn:Ex; simpl.
  - rewrite map_map.
    erewrite map_ext; [exact Hwf|].
    intros r. now destruct (has_key k r).
  - rewrite map_app. simpl.
    eapply Permutation_NoDup; [apply Permutation_cons_append|].
    constructor; [now apply existsb_has_key_in | exact Hwf].
Qed.

Lemma wf_submit_all (calls : list (Z * submit_request)) :
  forall db, wf db -> wf (submit_all db calls).
Proof.
  induction calls as [|c calls IH]; intros db Hwf; [exact Hwf|].
  apply IH. now apply wf_submit.
Qed.

Lemma unique_key (rows : list row) (r r' : row) :
  NoDup (map registration_number rows) ->
  In r rows -> In r' rows ->
  registration_number r = registration_number r' -> r = r'.
Proof.
  induction rows as [|x rows IH]; simpl; [intros _ []|].
  intros Hnd Hr Hr' Heq. inversion Hnd as [|? ? Hnotin Hnd']; subst.
  destruct Hr as [-> | Hr], Hr' as [-> | Hr'].
  - reflexivity.
  - exfalso. apply Hnotin. rewrite Heq. now apply in_map.
  - exfalso. apply Hnotin. rewrite <- Heq. now apply in_map.
  - now apply IH.
Qed.

(** ** Rank of one participant *)

Lemma position_from_find (k : string) (l : list row) :
  forall n,
    position_from n k (map parse_breakdown (map select_columns (row_number n l)))
    = option_map fst (find (fun nr => has_key k (snd nr)) (row_number n l)).
Proof.
  induction l as [|r l IH]; intros n; simpl; [reflexivity|].
  unfold has_key at 1. simpl.
  destruct (String.eqb (registration_number r) k); [reflexivity | apply IH].
Qed.

Lemma find_row_number {A} (p : A -> bool) (l : list A) :
  forall n m x,
    find (fun nr => p (snd nr)) (row_number n l) = Some (m, x) ->
    exists i, m = n + Z.of_nat i /\ nth_error l i = Some x /\ p x = true.
Proof.
  induction l as [|y l IH]; intros n m x; simpl; [discriminate|].
  destruct (p y) eqn:E.
  - intros [= <- <-]. exists 0%nat. repeat split; [lia | exact E].
  - intros H. apply IH in H as (i & -> & Hi & Hp).
    exists (S i). repeat split; [lia | exact Hi | exact Hp].
Qed.

Lemma full_page (db : database) (limit : Z) :
  Z.of_nat (List.length (tournament_scores db)) <= limit ->
  limit_offset limit 0 (ranked_scores db) = ranked_scores db.
Proof.
  intros Hle. unfold limit_offset.
  change (skipn (Z.to_nat 0) (ranked_scores db)) with (ranked_scores db).
  assert (List.length (ranked_scores db) = List.length (tournament_scores db))
    as Hlen.
  { unfold ranked_scores. rewrite row_number_length.
    apply Permutation_length, order_by_perm. }
  destruct (Z.ltb_spec limit 0); [lia|].
  apply firstn_all2. lia.
Qed.

Lemma ranked_find (db : database) (k : string) :
  wf db ->
  find (fun nr => has_key k (snd nr)) (ranked_scores db)
  = match lookup k db with
    | Some r =>
        option_map (fun n => (n, r))
          (option_map fst
             (find (fun nr => has_key k (snd nr)) (ranked_scores db)))
    | None => None
    end /\
  (lookup k db <> None ->
   find (fun nr => has_key k (snd nr)) (ranked_scores db) <> None).
Proof.
  intros Hwf. unfold lookup.
  pose proof (order_by_perm sort_key (tournament_scores db)) as Hperm.
  split.
  - destruct (find (fun nr => has_key k (snd nr)) (ranked_scores db))
      as [[n r']|] eqn:Ef.
    + apply find_some in Ef as (Hin & Hk). simpl in Hk.
      apply row_number_in in Hin. simpl in Hin.
      apply (Permutation_in _ Hperm) in Hin.
      destruct (find (has_key k) (tournament_scores db)) as [r|] eqn:El.
      * apply find_some in El as (Hin' & Hk'). simpl.
        apply has_key_true in Hk, Hk'.
        now rewrite (unique_key _ r r' Hwf Hin' Hin) by congruence.
      * exfalso. apply (find_none _ _ El) in Hin. congruence.
    + now destruct (find (has_key k) (tournament_scores db)).
  - intros Hsome Hnone.
    destruct (find (has_key k) (tournament_scores db)) as [r|] eqn:El;
      [|congruence].
    apply find_some in El as (Hin & Hk).
    apply (Permutation_in _ (Permutation_sym Hperm)) in Hin.
    apply In_nth_error in Hin as (i & Hi).
    assert (In (1 + Z.of_nat i, r) (ranked_scores db)) as Hin.
    { apply (nth_error_In _ i). unfold ranked_scores.
      now rewrite row_number_nth, Hi. }
    apply (find_none _ _ Hnone) in Hin. simpl in Hin. congruence.
Qed.

(** Counting the rows that satisfy a test, around a place of the list. *)
Lemma filter_length_perm {A} (p : A -> bool) (l l' : list A) :
  Permutation l l' ->
  List.length (filter p l) = List.length (filter p l').
Proof.
  induction 1 as [|x l l' _ IH|x y l|l l' l'' _ IH1 _ IH2]; simpl.
  - reflexivity.
  - destruct (p x); simpl; now rewrite IH.
  - destruct (p x), (p y); reflexivity.
  - now rewrite IH1.
Qed.

Lemma count_at_least {A} (p : A -> bool) (l : list A) :
  forall i x,
    nth_error l i = Some x ->
    (forall j y, (j <= i)%nat -> nth_error l j = Some y -> p y = true) ->
    (S i <= List.length (filter p l))%nat.
Proof.
  induction l as [|y l IH]; intros i x Hi Hall; [destruct i; discriminate|].
  simpl. rewrite (Hall 0%nat y (Nat.le_0_l i) eq_refl). simpl.
  destruct i as [|i]; [lia|].
  apply le_n_S. apply (IH i x Hi).
  intros j z Hj Hz. apply (Hall (S j) z); [lia | exact Hz].
Qed.

Lemma count_at_most {A} (p : A -> bool) (l : list A) :
  forall i,
    (forall j y, (i <= j)%nat -> nth_error l j = Some y -> p y = false) ->
    (List.length (filter p l) <= i)%nat.
Proof.
  induction l as [|y l IH]; intros i Hall; simpl; [lia|].
  destruct i as [|i].
  - rewrite (Hall 0%nat y (Nat.le_refl 0) eq_refl).
    apply (IH 0%nat). intros j z _ Hz.
    apply (Hall (S j) z); [lia | exact Hz].
  - assert (List.length (filter p l) <= i)%nat as H.
    { apply IH. intros j z Hj Hz. apply (Hall (S j) z); [lia | exact Hz]. }
    destruct (p y); simpl; lia.
Qed.

(** The place of a row in the ordered table lies above the number of rows
    that come strictly before it in the order of the leaderboard, and within
    the number of rows that do not come after it. *)
Lemma place_in_order (rows : list row) (i : nat) (r : row) :
  nth_error (order_by sort_key rows) i = Some r ->
  (List.length (filter (fun r' => strictly_better r' r) rows) <= i)%nat /\
  (S i <= List.length (filter (fun r' => not_worse r' r) rows))%nat.
Proof.
  intros Hi.
  pose proof (order_by_perm sort_key rows) as Hperm.
  pose proof (order_by_strongly_sorted sort_key rows) as Hss.
  rewrite <- (filter_length_perm _ _ _ Hperm).
  rewrite <- (filter_length_perm (fun r' => not_worse r' r) _ _ Hperm).
  split.
  - apply count_at_most. intros j y Hj Hy.
    assert (before (sort_key r) (sort_key y) = true) as Hb.
    { destruct (Nat.eq_dec i j) as [->|Hne].
      - rewrite Hi in Hy. injection Hy as <-.
        apply before_iff. right. split; [reflexivity | lia].
      - apply (strongly_sorted_nth _ _ Hss i j r y); [lia | exact Hi | exact Hy]. }
    apply before_iff in Hb. unfold sort_key in Hb. simpl in Hb.
    unfold strictly_better.
    apply orb_false_iff. split; [apply Z.ltb_ge; lia|].
    apply andb_false_iff.
    destruct (Z.eqb_spec (final_score y) (final_score r)); [right | now left].
    apply Z.ltb_ge. lia.
  - apply (count_at_least _ _ i r Hi). intros j y Hj Hy.
    assert (before (sort_key y) (sort_key r) = true) as Hb.
    { destruct (Nat.eq_dec j i) as [->|Hne].
      - rewrite Hi in Hy. injection Hy as <-.
        apply before_iff. right. split; [reflexivity | lia].
      - apply (strongly_sorted_nth _ _ Hss j i y r); [lia | exact Hy | exact Hi]. }
    exact Hb.
Qed.

(** C6. Rank of one participant: in a store with one record per key, for a
    key that has a record the rank request is answered 200 with the columns
    of that record and a rank equal to the 1-based place of the key in the
    leaderboard asked with limit = number of records and offset 0, which is
    answered 200; the order is that of best score descending and last
    submission ascending: the rank is above the number of records with a
    higher best score, or the same best score and a strictly earlier last
    submission, and within the number of records with a higher best score,
    or the same best score and a last submission that is not later (the
    record itself among them).  For a key without a record the rank request
    is answered 404. *)
Theorem rank_matches_leaderboard (db : database) (k : string)
    (query_limit query_offset : js string) :
  wf db ->
  Z.of_nat (List.length (tournament_scores db)) < 2 ^ 63 - 1 ->
  parseInt query_limit = Num (Z.of_nat (List.length (tournament_scores db))) ->
  parseInt query_offset = Num 0 ->
  (forall r, lookup k db = Some r ->
     exists n,
       get_rank db k
       = mkResponse 200
           (Success {| student :=
                         RankRow.mk n (registration_number r) (student_name r)
                           (final_score r) (levels_completed r)
                           (accuracy_rate r) (time_remaining r)
                           (completion_time r) |}) /\
       status (get_leaderboard db query_limit query_offset) = 200 /\
       position_of k
         (leaderboard_of (get_leaderboard db query_limit query_offset))
       = Some n /\
       Z.of_nat
         (List.length
            (filter (fun r' => strictly_better r' r) (tournament_scores db)))
       < n /\
       n <= Z.of_nat
              (List.length
                 (filter (fun r' => not_worse r' r) (tournament_scores db)))) /\
  (lookup k db = None ->
   get_rank db k = mkResponse 404 (Failure "Student not found in leaderboard.")).
Proof.
  intros Hwf Hfit Hlimit Hoffset.
  destruct (ranked_find db k Hwf) as (Hfind & Hpresent).
  set (len := Z.of_nat (List.length (tournament_scores db))) in *.
  assert (exists limit, bound_limit query_limit = Some limit /\ len <= limit)
    as (limit & Hl & Hle).
  { unfold bound_limit. rewrite Hlimit. unfold number_or, must_be_int.
    destruct (Z.eqb_spec len 0) as [E|E].
    - exists 100. split; [reflexivity | lia].
    - exists len. split; [|lia].
      assert ((- 2 ^ 63 <? len) = true) as -> by (apply Z.ltb_lt; lia).
      assert ((len <? 2 ^ 63 - 1) = true) as -> by (apply Z.ltb_lt; lia).
      reflexivity. }
  assert (bound_offset query_offset = Some 0) as Ho.
  { unfold bound_offset. now rewrite Hoffset. }
  split.
  - intros r Hr. rewrite Hr in Hfind.
    destruct (find (fun nr => has_key k (snd nr)) (ranked_scores db))
      as [[n r']|] eqn:Ef; [|exfalso; apply Hpresent; congruence].
    simpl in Hfind. injection Hfind as ->.
    exists n. split; [|split; [|split]].
    + unfold get_rank, rankQuery. now rewrite Ef.
    + destruct (get_leaderboard_cases db query_limit query_offset)
        as [(l & o & _ & _ & ->) | ([Hn | Hn] & _)];
        [reflexivity | congruence | congruence].
    + rewrite (leaderboard_of_get db _ _ limit 0 Hl Ho), leaderboardQuery_slice.
      rewrite (full_page db limit Hle).
      unfold position_of, ranked_scores. rewrite position_from_find.
      fold (ranked_scores db). now rewrite Ef.
    + unfold ranked_scores in Ef.
      apply find_row_number in Ef as (i & -> & Hi & _).
      destruct (place_in_order _ i r Hi) as (Hlow & Hhigh). lia.
  - intros Hnone. rewrite Hnone in Hfind.
    unfold get_rank, rankQuery. now rewrite Hfind.
Qed.

(** * Further properties of the handlers *)

(** ** The table after a submission *)

Lemma merged_row_cases (db : database) (now : Z) (req : submit_request)
    (k : string) (s : Z) :
  merged_row db now req k s
  = match lookup k db with
    | Some r => do_update now (incoming_row db now req k s) r
    | None => incoming_row db now req k s
    end.
Proof. reflexivity. Qed.

Lemma submit_rows (db : database) (now : Z) (req : submit_request) :
  fst (submit_score db now req)
  = match accepted req with
    | None => db
    | Some (k, s) =>
        if existsb (has_key k) (tournament_scores db) then
          {| tournament_scores :=
               map (fun r => if has_key k r
                             then do_update now (incoming_row db now req k s) r
                             else r) (tournament_scores db);
             sqlite_sequence :=
               Z.max (sqlite_sequence db) (max_rowid (tournament_scores db)) + 1;
             last_insert_rowid := last_insert_rowid db |}
        else
          {| tournament_scores :=
               (tournament_scores db ++ [incoming_row db now req k s])%list;
             sqlite_sequence :=
               Z.max (sqlite_sequence db) (max_rowid (tournament_scores db)) + 1;
             last_insert_rowid :=
               Z.max (sqlite_sequence db) (max_rowid (tournament_scores db)) + 1 |}
    end.
Proof.
  destruct (accepted req) as [[k s]|] eqn:Ea.
  - unfold accepted in Ea. unfold submit_score, incoming_row.
    destruct (registrationNumber (req_body req)) as [| |k0]; try discriminate.
    destruct (finalScore (req_body req)) as [| |s0]; try discriminate.
    simpl. unfold truthy, string_truthy.
    destruct (String.eqb k0 "") eqn:Ek; [discriminate|].
    injection Ea as -> ->. simpl. unfold upsertQuery. simpl.
    now destruct (existsb (has_key k) (tournament_scores db)).
  - now destruct (submit_rejected db now req Ea).
Qed.

(** ** Deleting one record *)

Lemma filter_negb_length {A} (p : A -> bool) (l : list A) :
  (List.length (filter p l) + List.length (filter (fun x => negb (p x)) l)
   = List.length l)%nat.
Proof.
  induction l as [|x l IH]; simpl; [reflexivity|].
  destruct (p x); simpl; lia.
Qed.

Lemma find_none_filter_nil {A} (p : A -> bool) (l : list A) :
  find p l = None <-> filter p l = [].
Proof.
  induction l as [|x l IH]; simpl; [split; reflexivity|].
  destruct (p x); [split; discriminate | exact IH].
Qed.

Lemma find_after_delete_same (k : string) (rows : list row) :
  find (has_key k) (filter (fun r => negb (has_key k r)) rows) = None.
Proof.
  induction rows as [|r rows IH]; simpl; [reflexivity|].
  destruct (has_key k r) eqn:E; simpl; [exact IH|]. now rewrite E.
Qed.

Lemma find_after_delete_other (k k' : string) (rows : list row) :
  k' <> k ->
  find (has_key k') (filter (fun r => negb (has_key k r)) rows)
  = find (has_key k') rows.
Proof.
  intros Hne. induction rows as [|r rows IH]; simpl; [reflexivity|].
  destruct (has_key k r) eqn:E; simpl.
  - apply has_key_true in E.
    assert (has_key k' r = false) as ->; [|exact IH].
    unfold has_key. rewrite E. apply String.eqb_neq. congruence.
  - destruct (has_key k' r); [reflexivity | exact IH].
Qed.

Lemma nodup_keys_filter (p : row -> bool) (rows : list row) :
  NoDup (map registration_number rows) ->
  NoDup (map registration_number (filter p rows)).
Proof.
  induction rows as [|r rows IH]; simpl; [intros H; exact H|].
  intros Hnd. inversion Hnd as [|? ? Hnotin Hnd']; subst.
  destruct (p r); simpl; [|now apply IH].
  constructor; [|now apply IH].
  intros Hin. apply Hnotin.
  apply in_map_iff in Hin as (x & Hx & Hin).
  apply filter_In in Hin as (Hin & _).
  rewrite <- Hx. now apply in_map.
Qed.

Lemma one_row_per_key (k : string) (rows : list row) :
  NoDup (map registration_number rows) ->
  (List.length (filter (has_key k) rows) <= 1)%nat.
Proof.
  induction rows as [|r rows IH]; simpl; [lia|].
  intros Hnd. inversion Hnd as [|? ? Hnotin Hnd']; subst.
  destruct (has_key k r) eqn:E; simpl; [|now apply IH].
  apply has_key_true in E.
  assert (filter (has_key k) rows = []) as ->; [|simpl; lia].
  apply find_none_filter_nil.
  destruct (find (has_key k) rows) as [r'|] eqn:Ef; [|reflexivity].
  apply find_some in Ef as (Hin & Hk). apply has_key_true in Hk.
  exfalso. apply Hnotin. rewrite E, <- Hk. now apply in_map.
Qed.

Lemma deleteQuery_changes (db : database) (k : string) :
  snd (deleteQuery db k)
  = Z.of_nat (List.length (filter (has_key k) (tournament_scores db))).
Proof.
  unfold deleteQuery. simpl.
  pose proof (filter_negb_length (has_key k) (tournament_scores db)). lia.
Qed.

Lemma deleteQuery_none (db : database) (k : string) :
  lookup k db = None -> deleteQuery db k = (db, 0).
Proof.
  unfold lookup. intros Hn.
  pose proof (deleteQuery_changes db k) as Hc.
  apply find_none_filter_nil in Hn.
  rewrite Hn in Hc. simpl in Hc.
  unfold deleteQuery in *. simpl in *. rewrite Hc. f_equal.
  destruct db as [rows sq li]. simpl in *. f_equal.
  clear Hc. induction rows as [|r rows IH]; simpl in *; [reflexivity|].
  destruct (has_key k r); simpl; [discriminate|]. f_equal. now apply IH.
Qed.

Lemma deleteQuery_some (db : database) (k : string) (r : row) :
  lookup k db = Some r -> 0 < snd (deleteQuery db k).
Proof.
  unfold lookup. intros Hs. rewrite deleteQuery_changes.
  destruct (filter (has_key k) (tournament_scores db)) eqn:Ef; [|simpl; lia].
  apply find_none_filter_nil in Ef. congruence.
Qed.

Lemma wf_delete (db : database) (k : string) :
  wf db -> wf (fst (deleteQuery db k)).
Proof. unfold wf, deleteQuery. simpl. apply nodup_keys_filter. Qed.

Lemma clear_student_unchanged_or_deleted (db : database)
    (query_key header_key query_reg body_reg : js string) :
  fst (delete_clear_student db query_key header_key query_reg body_reg) = db \/
  exists k,
    fst (delete_clear_student db query_key header_key query_reg body_reg)
    = fst (deleteQuery db k).
Proof.
  unfold delete_clear_student.
  destruct (negb (is_admin _)); [now left|].
  destruct (truthy_value _) as [k|]; [|now left].
  right. exists k. destruct (deleteQuery db k) as [db' changes].
  now destruct (changes =? 0).
Qed.

Lemma clear_all_unchanged_or_cleared (db : database) (now : Z)
    (query_key header_key : js string) :
  fst (delete_clear_all db now query_key header_key) = db \/
  fst (delete_clear_all db now query_key header_key) = clearQuery db.
Proof.
  unfold delete_clear_all. destruct (negb (is_admin _)); [now left | now right].
Qed.

(** ** One record per key, whatever the requests *)

Lemma wf_serve (db : database) (r : request) : wf db -> wf (serve db r).
Proof.
  intros Hwf. destruct r as [now req | now qk hk | qk hk qr br]; simpl.
  - now apply wf_submit.
  - destruct (clear_all_unchanged_or_cleared db now qk hk) as [-> | ->];
      [exact Hwf | apply wf_clear].
  - destruct (clear_student_unchanged_or_deleted db qk hk qr br)
      as [-> | (k & ->)]; [exact Hwf | now apply wf_delete].
Qed.

(** Uniqueness: in a store with one record per key, any run of submissions
    and administrative deletions leaves one record per key: no key ever has
    two rows. *)
Theorem one_record_per_key (db : database) (rs : list request) (k : string) :
  wf db ->
  wf (serve_all db rs) /\
  (List.length (filter (has_key k) (tournament_scores (serve_all db rs))) <= 1)%nat.
Proof.
  intros Hwf.
  assert (wf (serve_all db rs)) as H.
  { revert db Hwf. induction rs as [|r rs IH]; intros db Hwf; [exact Hwf|].
    apply IH. now apply wf_serve. }
  split; [exact H | now apply one_row_per_key].
Qed.

(** A submission adds one row when it is accepted and its key is new, and
    otherwise leaves the number of rows as it was. *)
Theorem submission_adds_at_most_one_record (db : database) (now : Z)
    (req : submit_request) :
  List.length (tournament_scores (fst (submit_score db now req)))
  = (List.length (tournament_scores db)
     + match accepted req with
       | Some (k, _) => match lookup k db with None => 1 | Some _ => 0 end
       | None => 0
       end)%nat.
Proof.
  rewrite submit_rows. destruct (accepted req) as [[k s]|]; [|lia].
  unfold lookup.
  destruct (existsb (has_key k) (tournament_scores db)) eqn:Ex; simpl.
  - rewrite length_map.
    destruct (find (has_key k) (tournament_scores db)) eqn:Ef; [lia|].
    apply existsb_find_none in Ef. congruence.
  - apply existsb_find_none in Ex. rewrite Ex, length_app. simpl. lia.
Qed.

(** ** What a submission leaves alone, and what it always renews *)

(** A submission changes no record but the one of its own key. *)
Theorem submission_leaves_other_records (db : database) (now : Z)
    (req : submit_request) (k' : string) :
  registrationNumber (req_body req) <> Val k' ->
  lookup k' (fst (submit_score db now req)) = lookup k' db.
Proof.
  intros Hne. destruct (accepted req) as [[k s]|] eqn:Ea.
  - destruct (submit_accepted db now req k s Ea) as (_ & _ & _ & Hother).
    apply Hother. intros ->.
    apply accepted_fields in Ea as (Hk & _). contradiction.
  - now destruct (submit_rejected db now req Ea) as (-> & _).
Qed.

(** Every accepted submission, whether it improves the score or not, stamps
    the record of its key with the time, the name, the address and the
    session of this submission, and a record that existed keeps its row id
    and its key. *)
Theorem submission_renews_the_record (db : database) (now : Z)
    (req : submit_request) (k : string) (s : Z) :
  accepted req = Some (k, s) ->
  exists r,
    lookup k (fst (submit_score db now req)) = Some r /\
    registration_number r = k /\
    completion_time r = now /\
    student_name r = Some (or_default (studentName (req_body req)) "Anonymous") /\
    ip_address r = bind (js_or (ip req) (remoteAddress req)) /\
    session_id r = bind (sessionId (req_body req)) /\
    (forall r0, lookup k db = Some r0 -> id r = id r0).
Proof.
  intros Ha. destruct (submit_accepted db now req k s Ha) as (_ & _ & Hl & _).
  exists (merged_row db now req k s). split; [exact Hl|].
  rewrite merged_row_cases.
  destruct (lookup k db) as [r0|] eqn:E; simpl.
  - apply find_some in E as (_ & Hk). apply has_key_true in Hk.
    repeat split; try assumption. now intros ? [= ->].
  - repeat split. discriminate.
Qed.

(** ** Ranks *)

Lemma rank_of_get_rank (db : database) (k : string) :
  rank_of (get_rank db k)
  = option_map fst (find (fun nr => has_key k (snd nr)) (ranked_scores db)).
Proof.
  unfold rank_of, get_rank, rankQuery.
  now destruct (find _ (ranked_scores db)) as [[n r]|].
Qed.

Lemma ranked_find_none (db : database) (k : string) :
  find (fun nr => has_key k (snd nr)) (ranked_scores db) = None <->
  lookup k db = None.
Proof.
  unfold lookup.
  pose proof (order_by_perm sort_key (tournament_scores db)) as Hperm.
  split; intros Hn.
  - destruct (find (has_key k) (tournament_scores db)) as [r|] eqn:El;
      [|reflexivity].
    apply find_some in El as (Hin & Hk).
    apply (Permutation_in _ (Permutation_sym Hperm)) in Hin.
    apply In_nth_error in Hin as (i & Hi).
    assert (In (1 + Z.of_nat i, r) (ranked_scores db)) as Hin.
    { apply (nth_error_In _ i). unfold ranked_scores.
      now rewrite row_number_nth, Hi. }
    apply (find_none _ _ Hn) in Hin. simpl in Hin. congruence.
  - destruct (find (fun nr => has_key k (snd nr)) (ranked_scores db))
      as [[n r]|] eqn:Ef; [|reflexivity].
    apply find_some in Ef as (Hin & Hk). simpl in Hk.
    apply row_number_in in Hin. simpl in Hin.
    apply (Permutation_in _ Hperm) in Hin.
    apply (find_none _ _ Hn) in Hin. congruence.
Qed.

(** The rank request finds a key exactly when the key has a record, and the
    rank it reports lies between 1 and the number of participants that the
    statistics report. *)
Theorem rank_within_bounds (db : database) (k : string) :
  (status (get_rank db k) = 404 <-> lookup k db = None) /\
  (status (get_rank db k) = 200 <-> lookup k db <> None) /\
  (forall n, rank_of (get_rank db k) = Some n ->
             1 <= n <= StatsRow.total_participants (statsQuery db)).
Proof.
  pose proof (ranked_find_none db k) as Hnone.
  split; [|split].
  - unfold get_rank, rankQuery.
    destruct (find _ (ranked_scores db)) as [[n r]|]; simpl.
    + split; [discriminate|]. intros H. apply Hnone in H. discriminate.
    + split; [intros _; now apply Hnone | reflexivity].
  - unfold get_rank, rankQuery.
    destruct (find _ (ranked_scores db)) as [[n r]|]; simpl.
    + split; [|reflexivity]. intros _ H. apply Hnone in H. discriminate.
    + split; [discriminate|]. intros H. exfalso. apply H. now apply Hnone.
  - intros n. rewrite rank_of_get_rank.
    destruct (find _ (ranked_scores db)) as [[m r]|] eqn:Ef; [|discriminate].
    intros [= <-]. simpl.
    unfold ranked_scores in Ef. apply find_row_number in Ef as (i & -> & Hi & _).
    assert (i < List.length (order_by sort_key (tournament_scores db)))%nat
      as Hlt by (apply nth_error_Some; congruence).
    rewrite (Permutation_length (order_by_perm sort_key (tournament_scores db)))
      in Hlt.
    lia.
Qed.

Lemma rank_lt_of_better (db : database) (a b : string)
    (ra rb : row) :
  wf db ->
  lookup a db = Some ra ->
  lookup b db = Some rb ->
  final_score rb < final_score ra \/
  (final_score ra = final_score rb /\ completion_time ra < completion_time rb) ->
  exists na nb,
    rank_of (get_rank db a) = Some na /\
    rank_of (get_rank db b) = Some nb /\
    na < nb.
Proof.
  intros Hwf Ha Hb Hbetter.
  destruct (ranked_find db a Hwf) as (Hfa & Hpa).
  destruct (ranked_find db b Hwf) as (Hfb & Hpb).
  rewrite Ha in Hfa, Hpa. rewrite Hb in Hfb, Hpb.
  destruct (find (fun nr => has_key a (snd nr)) (ranked_scores db))
    as [[na r1]|] eqn:Efa; [|exfalso; now apply Hpa].
  destruct (find (fun nr => has_key b (snd nr)) (ranked_scores db))
    as [[nb r2]|] eqn:Efb; [|exfalso; now apply Hpb].
  simpl in Hfa, Hfb. injection Hfa as ->. injection Hfb as ->.
  exists na, nb. rewrite !rank_of_get_rank, Efa, Efb.
  split; [reflexivity|]. split; [reflexivity|].
  unfold ranked_scores in Efa, Efb.
  apply find_row_number in Efa as (i & -> & Hi & _).
  apply find_row_number in Efb as (j & -> & Hj & _).
  pose proof (order_by_strongly_sorted sort_key (tournament_scores db)) as Hss.
  destruct (Nat.lt_trichotomy i j) as [H | [H | H]]; [lia | |].
  - subst j. rewrite Hi in Hj. injection Hj as <-. lia.
  - pose proof (strongly_sorted_nth _ _ Hss j i rb ra H Hj Hi) as Hin.
    apply before_iff in Hin. unfold sort_key in Hin. simpl in Hin. lia.
Qed.

(** Of two records, the one with the higher best score, or with the same
    best score and the earlier last submission, is reported the smaller
    rank. *)
Theorem better_record_has_smaller_rank (db : database) (a b : string)
    (ra rb : row) :
  wf db ->
  lookup a db = Some ra ->
  lookup b db = Some rb ->
  final_score rb < final_score ra \/
  (final_score ra = final_score rb /\ completion_time ra < completion_time rb) ->
  exists na nb,
    rank_of (get_rank db a) = Some na /\
    rank_of (get_rank db b) = Some nb /\
    na < nb.
Proof. apply rank_lt_of_better. Qed.

(** Resubmitting can cost rank: when [a] and [b] hold the same best score
    and [a] submits again, without improving, after the last submission of
    [b], then [b] is ranked before [a], wherever [a] stood before. *)
Theorem resubmission_moves_behind_equal_scores (db : database) (now : Z)
    (req : submit_request) (a b : string) (ra rb : row) (s : Z) :
  wf db -> a <> b ->
  lookup a db = Some ra ->
  lookup b db = Some rb ->
  final_score ra = final_score rb ->
  accepted req = Some (a, s) ->
  s <= final_score ra ->
  completion_time rb < now ->
  exists na nb,
    rank_of (get_rank (fst (submit_score db now req)) a) = Some na /\
    rank_of (get_rank (fst (submit_score db now req)) b) = Some nb /\
    nb < na.
Proof.
  intros Hwf Hab Ha Hb Heq Hacc Hs Hlate.
  destruct (submit_accepted db now req a s Hacc) as (_ & _ & Hla & Hother).
  assert (lookup b (fst (submit_score db now req)) = Some rb) as Hlb.
  { rewrite Hother by congruence. exact Hb. }
  destruct (rank_lt_of_better (fst (submit_score db now req)) b a rb
              (merged_row db now req a s))
    as (nb & na & Hnb & Hna & Hlt);
    [now apply wf_submit | exact Hlb | exact Hla | | eauto].
  right. rewrite merged_row_cases, Ha. simpl. rewrite case_when_max. lia.
Qed.

(** ** Pages of the leaderboard *)

Lemma firstn_then_firstn {A} (a b : nat) (l : list A) :
  (firstn a l ++ firstn b (skipn a l))%list = firstn (a + b) l.
Proof.
  revert l. induction a as [|a IH]; intros l; [reflexivity|].
  destruct l as [|x l]; simpl.
  - now rewrite firstn_nil.
  - now rewrite IH.
Qed.

Lemma limit_offset_length {A} (limit offset : Z) (l : list A) :
  List.length (limit_offset limit offset l)
  = if limit <? 0 then (List.length l - Z.to_nat offset)%nat
    else Nat.min (Z.to_nat limit) (List.length l - Z.to_nat offset).
Proof.
  unfold limit_offset. destruct (limit <? 0).
  - apply length_skipn.
  - now rewrite length_firstn, length_skipn.
Qed.

Lemma ranked_scores_length (db : database) :
  List.length (ranked_scores db) = List.length (tournament_scores db).
Proof.
  unfold ranked_scores. rewrite row_number_length.
  apply Permutation_length, order_by_perm.
Qed.

Lemma find_row_number_unique (l : list row) :
  NoDup (map registration_number l) ->
  forall n i r,
    nth_error l i = Some r ->
    find (fun nr => has_key (registration_number r) (snd nr)) (row_number n l)
    = Some (n + Z.of_nat i, r).
Proof.
  induction l as [|y l IH]; intros Hnd n i r Hi; [destruct i; discriminate|].
  inversion Hnd as [|? ? Hnotin Hnd']; subst.
  destruct i as [|i]; simpl in *.
  - injection Hi as ->. unfold has_key. rewrite String.eqb_refl.
    now rewrite Z.add_0_r.
  - destruct (has_key (registration_number r) y) eqn:E.
    + exfalso. apply Hnotin. apply has_key_true in E. rewrite E.
      apply in_map. eapply nth_error_In; eauto.
    + rewrite (IH Hnd' (n + 1) i r Hi). do 2 f_equal. lia.
Qed.

(** The number of rows of a page.  When the limit and the offset of the
    query can be bound as 64-bit integers the answer is 200 with the listed
    rows and their number as [total]; the rows are what is left of the table
    after the offset, cut at the limit unless the limit is negative.  When
    one of the two cannot be bound the answer is 500 and lists nothing.  The
    limit is the default 100 when the query gives none, a text that is no
    number, or 0. *)
Theorem page_size (db : database) (query_limit query_offset : js string) :
  (forall limit offset,
      bound_limit query_limit = Some limit ->
      bound_offset query_offset = Some offset ->
      get_leaderboard db query_limit query_offset
      = mkResponse 200
          (Success
             {| leaderboard :=
                  leaderboard_of (get_leaderboard db query_limit query_offset);
                total :=
                  Z.of_nat
                    (List.length
                       (leaderboard_of
                          (get_leaderboard db query_limit query_offset))) |}) /\
      List.length (leaderboard_of (get_leaderboard db query_limit query_offset))
      = (if limit <? 0
         then (List.length (tournament_scores db) - Z.to_nat offset)%nat
         else Nat.min (Z.to_nat limit)
                (List.length (tournament_scores db) - Z.to_nat offset))) /\
  (bound_limit query_limit = None \/ bound_offset query_offset = None ->
   get_leaderboard db query_limit query_offset
   = mkResponse 500 (Failure "Error fetching leaderboard.") /\
   leaderboard_of (get_leaderboard db query_limit query_offset) = []) /\
  (parseInt query_limit = NaN \/ parseInt query_limit = Num 0 ->
   bound_limit query_limit = Some 100).
Proof.
  split; [|split].
  - intros limit offset Hl Ho.
    rewrite (leaderboard_of_get db _ _ limit offset Hl Ho). split.
    + destruct (get_leaderboard_cases db query_limit query_offset)
        as [(l & o & Hl' & Ho' & ->) | ([Hn | Hn] & _)];
        [congruence | congruence | congruence].
    + rewrite leaderboardQuery_slice, !length_map.
      rewrite limit_offset_length, ranked_scores_length. reflexivity.
  - apply leaderboard_of_unbound.
  - unfold bound_limit. intros [-> | ->]; reflexivity.
Qed.

(** Every row of a page is a record of the store, listed with the rank it
    has in the whole table: offset plus place on the page; and this is the
    rank that the rank request reports for its key. *)
Theorem page_rows_carry_table_ranks (db : database)
    (query_limit query_offset : js string) (i : nat)
    (e : LeaderboardRow.t object) :
  wf db ->
  nth_error (leaderboard_of (get_leaderboard db query_limit query_offset)) i
  = Some e ->
  LeaderboardRow.rank e
  = Z.max 0 (effective_offset query_offset) + Z.of_nat i + 1 /\
  rank_of (get_rank db (LeaderboardRow.registration_number e))
  = Some (LeaderboardRow.rank e) /\
  exists r,
    lookup (LeaderboardRow.registration_number e) db = Some r /\
    e = parse_breakdown (select_columns (LeaderboardRow.rank e, r)).
Proof.
  intros Hwf He.
  apply leaderboard_of_nth in He as (r & Hr & _ & _ & _ & _ & ->).
  set (idx := (Z.to_nat (effective_offset query_offset) + i)%nat) in *.
  pose proof (order_by_perm sort_key (tournament_scores db)) as Hperm.
  assert (NoDup (map registration_number
                   (order_by sort_key (tournament_scores db)))) as Hnd.
  { eapply Permutation_NoDup; [|exact Hwf].
    apply Permutation_map, Permutation_sym, Hperm. }
  pose proof (find_row_number_unique _ Hnd 1 idx r Hr) as Hfind.
  change (LeaderboardRow.rank
            (parse_breakdown (select_columns (1 + Z.of_nat idx, r))))
    with (1 + Z.of_nat idx).
  change (LeaderboardRow.registration_number
            (parse_breakdown (select_columns (1 + Z.of_nat idx, r))))
    with (registration_number r).
  split; [unfold idx; lia|]. split.
  - rewrite rank_of_get_rank. unfold ranked_scores. now rewrite Hfind.
  - exists r. split; [|reflexivity].
    assert (In r (tournament_scores db)) as Hin.
    { apply (Permutation_in _ Hperm). eapply nth_error_In; eauto. }
    unfold lookup.
    destruct (find (has_key (registration_number r)) (tournament_scores db))
      as [r'|] eqn:Ef.
    + apply find_some in Ef as (Hin' & Hk). apply has_key_true in Hk.
      f_equal. now apply (unique_key _ _ _ Hwf Hin' Hin).
    + apply (find_none _ _ Ef) in Hin. unfold has_key in Hin.
      rewrite String.eqb_refl in Hin. discriminate.
Qed.

(** A page lists its rows by descending best score and ascending rank. *)
Theorem board_is_sorted_by_score (db : database)
    (query_limit query_offset : js string) (i j : nat)
    (a b : LeaderboardRow.t object) :
  nth_error (leaderboard_of (get_leaderboard db query_limit query_offset)) i
  = Some a ->
  nth_error (leaderboard_of (get_leaderboard db query_limit query_offset)) j
  = Some b ->
  (i < j)%nat ->
  LeaderboardRow.final_score b <= LeaderboardRow.final_score a /\
  LeaderboardRow.rank a < LeaderboardRow.rank b.
Proof.
  intros Ha Hb Hij.
  apply leaderboard_of_nth in Ha as (ra & Hra & Haa & _ & Hsa & _).
  apply leaderboard_of_nth in Hb as (rb & Hrb & Hbb & _ & Hsb & _).
  pose proof (order_by_strongly_sorted sort_key (tournament_scores db)) as Hss.
  assert (in_order sort_key ra rb) as Hin.
  { eapply (strongly_sorted_nth _ _ Hss); [|exact Hra | exact Hrb]. lia. }
  apply before_iff in Hin. unfold sort_key in Hin. simpl in Hin.
  split; lia.
Qed.

(** Consecutive pages fit together: when the limits [l1], [l2] and
    [l1 + l2] and the offsets [o] and [o + l1] are what the queries bind, a
    page of [l1] rows from the offset [o] followed by the page of [l2] rows
    from [o + l1] is the page of [l1 + l2] rows from [o]; paging neither
    repeats nor drops nor reorders a row. *)
Theorem consecutive_pages_concatenate (db : database)
    (limit1 limit2 limit12 offset1 offset2 : js string) (l1 l2 o : Z) :
  0 < l1 -> 0 < l2 -> 0 <= o ->
  bound_limit limit1 = Some l1 ->
  bound_limit limit2 = Some l2 ->
  bound_limit limit12 = Some (l1 + l2) ->
  bound_offset offset1 = Some o ->
  bound_offset offset2 = Some (o + l1) ->
  (leaderboard_of (get_leaderboard db limit1 offset1)
   ++ leaderboard_of (get_leaderboard db limit2 offset2))%list
  = leaderboard_of (get_leaderboard db limit12 offset1).
Proof.
  intros H1 H2 Ho P1 P2 P12 Po1 Po2.
  rewrite (leaderboard_of_get db _ _ _ _ P1 Po1).
  rewrite (leaderboard_of_get db _ _ _ _ P2 Po2).
  rewrite (leaderboard_of_get db _ _ _ _ P12 Po1).
  rewrite !leaderboardQuery_slice.
  rewrite <- !map_app. do 2 f_equal.
  unfold limit_offset.
  destruct (Z.ltb_spec l1 0); [lia|].
  destruct (Z.ltb_spec l2 0); [lia|].
  destruct (Z.ltb_spec (l1 + l2) 0); [lia|].
  replace (Z.to_nat (o + l1)) with (Z.to_nat l1 + Z.to_nat o)%nat by lia.
  rewrite <- skipn_skipn, firstn_then_firstn. f_equal. lia.
Qed.

(** When the query binds a limit that is negative, or one that is not below
    the number of records, and an offset that is not positive, the
    leaderboard lists every record of the store once. *)
Theorem unlimited_board_lists_every_record (db : database)
    (query_limit query_offset : js string) (limit offset : Z) :
  bound_limit query_limit = Some limit ->
  bound_offset query_offset = Some offset ->
  limit < 0 \/ Z.of_nat (List.length (tournament_scores db)) <= limit ->
  offset <= 0 ->
  status (get_leaderboard db query_limit query_offset) = 200 /\
  Permutation
    (map LeaderboardRow.registration_number
       (leaderboard_of (get_leaderboard db query_limit query_offset)))
    (map registration_number (tournament_scores db)).
Proof.
  intros Hbl Hbo Hl Ho. split.
  { destruct (get_leaderboard_cases db query_limit query_offset)
      as [(l & o & _ & _ & ->) | ([Hn | Hn] & _)];
      [reflexivity | congruence | congruence]. }
  rewrite (leaderboard_of_get db _ _ _ _ Hbl Hbo), leaderboardQuery_slice.
  assert (limit_offset limit offset (ranked_scores db) = ranked_scores db)
    as ->.
  { unfold limit_offset.
    replace (Z.to_nat offset) with 0%nat by lia.
    simpl. destruct (Z.ltb_spec limit 0); [reflexivity|].
    apply firstn_all2. rewrite ranked_scores_length. lia. }
  rewrite !map_map. unfold ranked_scores.
  transitivity (map registration_number
                  (order_by sort_key (tournament_scores db))).
  - generalize (order_by sort_key (tournament_scores db)) as l.
    generalize 1 as n.
    intros n l. revert n. induction l as [|x l IH]; intros n; simpl;
      [reflexivity|].
    constructor. apply IH.
  - apply Permutation_map, order_by_perm.
Qed.

(** ** The administrative requests *)

Lemma is_admin_iff (k : js string) :
  is_admin k = true <-> k = Val "IEEE2025ADMIN".
Proof.
  destruct k as [| |k]; simpl; try (split; discriminate).
  rewrite String.eqb_eq. split; [now intros -> | now intros [= ->]].
Qed.

Lemma is_admin_authorized (query_key header_key : js string) :
  is_admin (js_or query_key header_key) = true <->
  authorized query_key header_key.
Proof.
  unfold authorized, js_or. destruct (is_truthy query_key) eqn:Et.
  - rewrite is_admin_iff. split; [now left|].
    intros [H | [H _]]; [exact H | discriminate].
  - rewrite is_admin_iff. split; [now right|].
    intros [H | [_ H]]; [|exact H].
    rewrite H in Et. discriminate.
Qed.

Lemma not_admin_unauthorized (query_key header_key : js string) :
  ~ authorized query_key header_key ->
  negb (is_admin (js_or query_key header_key)) = true.
Proof.
  intros Hn. destruct (is_admin (js_or query_key header_key)) eqn:E;
    [|reflexivity].
  exfalso. apply Hn. now apply is_admin_authorized.
Qed.

Lemma admin_authorized (query_key header_key : js string) :
  authorized query_key header_key ->
  negb (is_admin (js_or query_key header_key)) = false.
Proof. intros H. apply is_admin_authorized in H. now rewrite H. Qed.

(** Without the administrator's key (in the query string, or in the header
    when the query string gives none) each of the three administrative
    requests is answered 403, whatever else it carries, and the store is
    left as it was; a wrong key in the query string is not made good by the
    right key in the header. *)
Theorem admin_requests_need_the_key (db : database) (now : Z)
    (query_key header_key query_reg body_reg : js string) :
  ~ authorized query_key header_key ->
  delete_clear_all db now query_key header_key
  = (db, mkResponse 403 (Failure "Unauthorized. Admin key required.")) /\
  delete_clear_student db query_key header_key query_reg body_reg
  = (db, mkResponse 403 (Failure "Unauthorized. Admin key required.")) /\
  get_backup db now query_key header_key
  = mkResponse 403 (BackupRefused "Unauthorized. Admin key required.").
Proof.
  intros Hn. apply not_admin_unauthorized in Hn.
  unfold delete_clear_all, delete_clear_student, get_backup.
  rewrite Hn. auto.
Qed.

(** After an authorized clear-all the store is empty for every reader: the
    leaderboard lists nothing, no key has a rank, the statistics count 0;
    and the next accepted submission of any key stores exactly the score it
    carries, whatever the key's best score was before. *)
Theorem clear_all_empties_every_view (db : database) (now : Z)
    (query_key header_key : js string) :
  authorized query_key header_key ->
  status (snd (delete_clear_all db now query_key header_key)) = 200 /\
  tournament_scores (fst (delete_clear_all db now query_key header_key)) = [] /\
  (forall query_limit query_offset,
      leaderboard_of
        (get_leaderboard (fst (delete_clear_all db now query_key header_key))
           query_limit query_offset) = []) /\
  (forall k,
      status (get_rank (fst (delete_clear_all db now query_key header_key)) k)
      = 404) /\
  StatsRow.total_participants
    (statsQuery (fst (delete_clear_all db now query_key header_key))) = 0 /\
  (forall now' req k s,
      accepted req = Some (k, s) ->
      score_of k
        (fst (submit_score
                (fst (delete_clear_all db now query_key header_key)) now' req))
      = Some s).
Proof.
  intros Ha. apply admin_authorized in Ha.
  unfold delete_clear_all. rewrite Ha. simpl.
  split; [reflexivity|]. split; [reflexivity|]. split; [|split; [|split]].
  - intros ql qo.
    destruct (get_leaderboard_cases (clearQuery db) ql qo)
      as [(l & o & Hl & Ho & _) | (Hn & _)].
    + rewrite (leaderboard_of_get _ _ _ l o Hl Ho), leaderboardQuery_slice.
      unfold ranked_scores, limit_offset. simpl.
      rewrite skipn_nil. destruct (_ <? 0); [reflexivity|].
      now rewrite firstn_nil.
    + now destruct (leaderboard_of_unbound (clearQuery db) _ _ Hn).
  - reflexivity.
  - reflexivity.
  - intros now' req k s Hacc.
    destruct (submit_accepted (clearQuery db) now' req k s Hacc)
      as (_ & _ & Hl & _).
    unfold score_of. rewrite Hl. reflexivity.
Qed.

(** An authorized clear-student that names no registration number is
    answered 400, and one that names a key without a record is answered
    404; neither changes the store. *)
Theorem clear_student_refusals (db : database)
    (query_key header_key query_reg body_reg : js string) :
  authorized query_key header_key ->
  (truthy_value (js_or query_reg body_reg) = None ->
   delete_clear_student db query_key header_key query_reg body_reg
   = (db, mkResponse 400 (Failure "Registration number is required."))) /\
  (forall k,
      truthy_value (js_or query_reg body_reg) = Some k ->
      lookup k db = None ->
      delete_clear_student db query_key header_key query_reg body_reg
      = (db, mkResponse 404 (Failure "Student not found."))).
Proof.
  intros Ha. apply admin_authorized in Ha.
  unfold delete_clear_student. rewrite Ha. split.
  - now intros ->.
  - intros k -> Hn. now rewrite (deleteQuery_none db k Hn).
Qed.

(** An authorized clear-student of a key that has a record removes that
    record and no other: it reports one deleted record, the key has no
    record and no rank afterwards, every other key keeps its record, and
    the store holds one row less. *)
Theorem clear_student_removes_the_record (db : database)
    (query_key header_key query_reg body_reg : js string) (k : string)
    (r : row) :
  wf db ->
  authorized query_key header_key ->
  truthy_value (js_or query_reg body_reg) = Some k ->
  lookup k db = Some r ->
  snd (delete_clear_student db query_key header_key query_reg body_reg)
  = mkResponse 200
      (Success {| delete_message :=
                    "Student record for " ++ k ++ " has been deleted.";
                  deletedRecords := 1 |}) /\
  lookup k (fst (delete_clear_student db query_key header_key query_reg body_reg))
  = None /\
  status (get_rank
            (fst (delete_clear_student db query_key header_key query_reg
                    body_reg)) k) = 404 /\
  (forall k', k' <> k ->
     lookup k'
       (fst (delete_clear_student db query_key header_key query_reg body_reg))
     = lookup k' db) /\
  S (List.length
       (tournament_scores
          (fst (delete_clear_student db query_key header_key query_reg
                  body_reg))))
  = List.length (tournament_scores db).
Proof.
  intros Hwf Ha Hk Hr. apply admin_authorized in Ha.
  pose proof (deleteQuery_changes db k) as Hc.
  pose proof (deleteQuery_some db k r Hr) as Hpos.
  pose proof (one_row_per_key k _ Hwf) as Hone.
  assert (snd (deleteQuery db k) = 1) as H1 by lia.
  assert (fst (deleteQuery db k)
          = {| tournament_scores :=
                 filter (fun r => negb (has_key k r)) (tournament_scores db);
               sqlite_sequence := sqlite_sequence db;
               last_insert_rowid := last_insert_rowid db |}) as Hdb
    by reflexivity.
  unfold delete_clear_student. rewrite Ha, Hk.
  destruct (deleteQuery db k) as [db' changes]. simpl in H1, Hdb. subst.
  simpl. split; [reflexivity|].
  assert (lookup k
            {| tournament_scores :=
                 filter (fun r => negb (has_key k r)) (tournament_scores db);
               sqlite_sequence := sqlite_sequence db;
               last_insert_rowid := last_insert_rowid db |} = None) as Hgone
    by apply find_after_delete_same.
  split; [exact Hgone|]. split; [|split].
  - unfold get_rank, rankQuery.
    now rewrite (proj2 (ranked_find_none _ k) Hgone).
  - intros k' Hne. now apply find_after_delete_other.
  - pose proof (filter_negb_length (has_key k) (tournament_scores db)).
    simpl in Hc. lia.
Qed.

(** The best score restarts after a deletion: once an authorized
    clear-student has named the key [k], the next accepted submission of
    [k] stores exactly the score it carries. *)
Theorem best_score_restarts_after_deletion (db : database)
    (query_key header_key query_reg body_reg : js string) (k : string)
    (now : Z) (req : submit_request) (s : Z) :
  authorized query_key header_key ->
  truthy_value (js_or query_reg body_reg) = Some k ->
  accepted req = Some (k, s) ->
  score_of k
    (fst (submit_score
            (fst (delete_clear_student db query_key header_key query_reg
                    body_reg)) now req))
  = Some s.
Proof.
  intros Ha Hk Hacc. apply admin_authorized in Ha.
  assert (lookup k
            (fst (delete_clear_student db query_key header_key query_reg
                    body_reg)) = None) as Hgone.
  { unfold delete_clear_student. rewrite Ha, Hk.
    assert (lookup k (fst (deleteQuery db k)) = None) as H
      by apply find_after_delete_same.
    destruct (deleteQuery db k) as [db' changes]. simpl in H.
    now destruct (changes =? 0). }
  destruct (submit_accepted
              (fst (delete_clear_student db query_key header_key query_reg
                      body_reg)) now req k s Hacc) as (_ & _ & Hl & _).
  unfold score_of. rewrite Hl, merged_row_cases, Hgone. reflexivity.
Qed.

(** ** The backup *)

(** An authorized backup exports every record of the store once, with all
    its columns, the most recently submitted first, under the time of the
    export and a record count equal to the participant count of the
    statistics. *)
Theorem backup_exports_every_record (db : database) (now : Z)
    (query_key header_key : js string) :
  authorized query_key header_key ->
  get_backup db now query_key header_key
  = mkResponse 200
      (Backup now (StatsRow.total_participants (statsQuery db))
         (backup_data (get_backup db now query_key header_key))) /\
  Permutation (backup_data (get_backup db now query_key header_key))
    (map (fun r => parse_backup_row (select_all r)) (tournament_scores db)) /\
  (forall i j a b,
      (i < j)%nat ->
      nth_error (backup_data (get_backup db now query_key header_key)) i
      = Some a ->
      nth_error (backup_data (get_backup db now query_key header_key)) j
      = Some b ->
      BackupRow.completion_time b <= BackupRow.completion_time a).
Proof.
  intros Ha. apply admin_authorized in Ha.
  unfold get_backup, backup_data. rewrite Ha. simpl.
  pose proof (order_by_perm backup_key (tournament_scores db)) as Hperm.
  split; [|split].
  - unfold backupQuery. rewrite length_map.
    now rewrite (Permutation_length Hperm).
  - unfold backupQuery. rewrite map_map. now apply Permutation_map.
  - intros i j a b Hij Hi Hj.
    unfold backupQuery in Hi, Hj. rewrite map_map, nth_error_map in Hi, Hj.
    destruct (nth_error (order_by backup_key (tournament_scores db)) i)
      as [ra|] eqn:Ei; [|discriminate].
    destruct (nth_error (order_by backup_key (tournament_scores db)) j)
      as [rb|] eqn:Ej; [|discriminate].
    injection Hi as <-. injection Hj as <-. simpl.
    pose proof (order_by_strongly_sorted backup_key (tournament_scores db))
      as Hss.
    pose proof (strongly_sorted_nth _ _ Hss i j ra rb Hij Ei Ej) as Hin.
    apply before_iff in Hin. unfold backup_key in Hin. simpl in Hin. lia.
Qed.

(** ** Row ids *)

Lemma max_rowid_bounds (rows : list row) :
  Forall (fun r => id r <= max_rowid rows) rows.
Proof.
  unfold max_rowid.
  destruct (fold_max_bounds (map id rows) 0) as (_ & Hall & _).
  rewrite Forall_forall in *. intros r Hin. apply Hall. now apply in_map.
Qed.

Lemma strongly_sorted_snoc (l : list Z) (x : Z) :
  StronglySorted Z.lt l -> Forall (fun y => y < x) l ->
  StronglySorted Z.lt (l ++ [x]).
Proof.
  induction 1 as [|y l Hs IH Hall]; intros Hx; simpl.
  - repeat constructor.
  - inversion Hx; subst. constructor; [now apply IH|].
    apply Forall_app. split; [exact Hall | now repeat constructor].
Qed.

Lemma strongly_sorted_ids_filter (p : row -> bool) (rows : list row) :
  StronglySorted Z.lt (map id rows) ->
  StronglySorted Z.lt (map id (filter p rows)).
Proof.
  induction rows as [|r rows IH]; simpl; [intros H; exact H|].
  intros Hs. apply StronglySorted_inv in Hs as (Hs & Hall).
  destruct (p r); simpl; [|now apply IH].
  constructor; [now apply IH|].
  rewrite Forall_forall in *. intros y Hy. apply Hall.
  apply in_map_iff in Hy as (x & <- & Hx). apply filter_In in Hx as (Hx & _).
  now apply in_map.
Qed.

Lemma ids_fresh_submit (db : database) (now : Z) (req : submit_request) :
  ids_fresh db ->
  ids_fresh (fst (submit_score db now req)) /\
  sqlite_sequence db <= sqlite_sequence (fst (submit_score db now req)).
Proof.
  intros (Hs & Hle). rewrite submit_rows.
  destruct (accepted req) as [[k s]|]; [|split; [now split | lia]].
  pose proof (max_rowid_bounds (tournament_scores db)) as Hmax.
  destruct (existsb (has_key k) (tournament_scores db)); unfold ids_fresh; simpl.
  - split; [split|lia].
    + rewrite map_map. erewrite map_ext; [exact Hs|].
      intros r. now destruct (has_key k r).
    + rewrite Forall_map. rewrite Forall_forall in *. intros r Hin.
      specialize (Hle r Hin). destruct (has_key k r); simpl; lia.
  - split; [split|lia].
    + rewrite map_app. simpl. apply strongly_sorted_snoc; [exact Hs|].
      rewrite Forall_map. rewrite Forall_forall in *. intros r Hin.
      specialize (Hle r Hin). lia.
    + apply Forall_app. split.
      * rewrite Forall_forall in *. intros r Hin. specialize (Hle r Hin). lia.
      * repeat constructor. simpl. lia.
Qed.

Lemma ids_fresh_serve (db : database) (r : request) :
  ids_fresh db ->
  ids_fresh (serve db r) /\ sqlite_sequence db <= sqlite_sequence (serve db r).
Proof.
  intros Hf. destruct r as [now req | now qk hk | qk hk qr br]; simpl.
  - now apply ids_fresh_submit.
  - destruct (clear_all_unchanged_or_cleared db now qk hk) as [-> | ->].
    + split; [exact Hf | lia].
    + split; [|simpl; lia]. split; constructor.
  - destruct (clear_student_unchanged_or_deleted db qk hk qr br)
      as [-> | (k & ->)]; [split; [exact Hf | lia]|].
    destruct Hf as (Hs & Hle). unfold deleteQuery, ids_fresh. simpl.
    split; [split|lia].
    + now apply strongly_sorted_ids_filter.
    + rewrite Forall_forall in *. intros r Hin.
      apply filter_In in Hin as (Hin & _). now apply Hle.
Qed.

(** Row ids are never reused: over any run of submissions and deletions
    the ids of the table stay distinct and increasing in the order of
    creation and the AUTOINCREMENT counter never goes back, so that a record
    created afterwards gets an id above the counter, hence above every id
    handed out before, also the ids of records since deleted; that id is the
    [scoreId] of the response. *)
Theorem row_ids_are_never_reused (db : database) (rs : list request) :
  ids_fresh db ->
  ids_fresh (serve_all db rs) /\
  sqlite_sequence db <= sqlite_sequence (serve_all db rs) /\
  (forall now req k s,
      accepted req = Some (k, s) ->
      lookup k (serve_all db rs) = None ->
      exists r,
        lookup k (fst (submit_score (serve_all db rs) now req)) = Some r /\
        sqlite_sequence db < id r /\
        Forall (fun r0 => id r0 < id r) (tournament_scores (serve_all db rs)) /\
        json (snd (submit_score (serve_all db rs) now req))
        = Success {| message := "Score submitted successfully!";
                     scoreId := id r;
                     rank := None |}).
Proof.
  intros Hf.
  assert (ids_fresh (serve_all db rs) /\
          sqlite_sequence db <= sqlite_sequence (serve_all db rs)) as (Hf' & Hseq).
  { revert db Hf. induction rs as [|r rs IH]; intros db Hf;
      [split; [exact Hf | simpl; lia]|].
    change (serve_all db (r :: rs)) with (serve_all (serve db r) rs).
    destruct (ids_fresh_serve db r Hf) as (Hf1 & Hle1).
    destruct (IH (serve db r) Hf1) as (Hf2 & Hle2).
    split; [exact Hf2 | lia]. }
  split; [exact Hf'|]. split; [exact Hseq|].
  intros now req k s Hacc Hnone.
  set (db' := serve_all db rs) in *.
  destruct (submit_accepted db' now req k s Hacc) as (_ & _ & Hl & _).
  destruct (submit_accepted_response db' now req k s Hacc) as (Hresp & Hid).
  exists (merged_row db' now req k s). split; [exact Hl|].
  rewrite merged_row_cases, Hnone.
  pose proof (max_rowid_bounds (tournament_scores db')) as Hmax.
  split; [simpl; lia|]. split.
  - rewrite Forall_forall in *. intros r0 Hin. specialize (Hmax r0 Hin).
    simpl. lia.
  - rewrite Hresp. simpl. rewrite (Hid Hnone).
    now rewrite merged_row_cases, Hnone.
Qed.

(** ** Statistics of a store that is not empty *)


End Server.

(** * A concrete server

    The level breakdown carried as its JSON text, so that the handlers can be
    run on concrete requests. *)

Definition stringify_text (o : string) : string := o.
Definition parse_text (s : string) : string := s.

Definition submit (db : database) (now : Z) (req : @submit_request string)
  : database * response (body submit_payload) :=
  submit_score "{}" stringify_text db now req.

Definition submit_run (db : database) (calls : list (Z * @submit_request string))
  : database :=
  submit_all "{}" stringify_text db calls.

Definition board (db : database) (query_limit query_offset : js string)
  : response (body (@leaderboard_payload string)) :=
  get_leaderboard parse_text db query_limit query_offset.

(** Rank and key of each listed row. *)
Definition listing (resp : response (body (@leaderboard_payload string)))
  : list (Z * string) :=
  map (fun e => (LeaderboardRow.rank e, LeaderboardRow.registration_number e))
      (leaderboard_of resp).

(** A request whose final score is null. *)
Definition null_score_request (reg : string) : @submit_request string :=
  {| req_body :=
       {| registrationNumber := Val reg;
          studentName := Undefined;
          finalScore := Null;
          levelsCompleted := Undefined;
          accuracyRate := Undefined;
          timeRemaining := Undefined;
          levelBreakdown := Undefined;
          sessionId := Undefined |};
     ip := Undefined;
     remoteAddress := Undefined |}.

(** Three submissions for A1 around one for B1. *)
Definition calls_A1 : list (Z * @submit_request string) :=
  [(1, plain_request "A1" 300 Undefined);
   (2, plain_request "B1" 999 Undefined);
   (3, plain_request "A1" 500 Undefined);
   (4, plain_request "A1" 100 Undefined)].

(** B1 then C1, the same score, five seconds apart. *)
Definition db_B1_then_C1 : database :=
  submit_run empty_database
    [(5, plain_request "B1" 100 Undefined);
     (10, plain_request "C1" 100 Undefined)].

(** B1 then C1, and C1 then B1, the same score within the same second. *)
Definition db_B1_C1_same_second : database :=
  submit_run empty_database
    [(7, plain_request "B1" 100 Undefined);
     (7, plain_request "C1" 100 Undefined)].

Definition db_C1_B1_same_second : database :=
  submit_run empty_database
    [(7, plain_request "C1" 100 Undefined);
     (7, plain_request "B1" 100 Undefined)].

(** A1, then C1 and B1 with the same higher score, then C1 once more with a
    lower one: the rows are stored in the order A1, C1, B1, and the last
    submission of C1 is later than that of B1. *)
Definition db_resubmitted : database :=
  submit_run empty_database
    [(1, plain_request "A1" 300 Undefined);
     (2, plain_request "C1" 500 Undefined);
     (3, plain_request "B1" 500 Undefined);
     (4, plain_request "C1" 400 Undefined)].

(** Every column of a row but its rowid. *)
Definition content (r : row) :=
  (registration_number r, student_name r, final_score r, levels_completed r,
   accuracy_rate r, time_remaining r, level_breakdown r, completion_time r,
   ip_address r, session_id r).

Definition same_records (db1 db2 : database) : Prop :=
  Permutation (map content (tournament_scores db1))
              (map content (tournament_scores db2)).

(** ** The theorems at concrete inputs *)

(** C1 at A1 submitting 300, 500 and 100 around a submission of B1. *)
Lemma best_score_is_max_witness :
  lookup "A1" empty_database = None /\
  scores_for "A1" calls_A1 = [300; 500; 100] /\
  exists r, lookup "A1" (submit_run empty_database calls_A1) = Some r /\
            is_max (final_score r) [300; 500; 100].
Proof.
  split; [reflexivity|]. split; [reflexivity|].
  refine (proj1 (best_score_is_max "{}" stringify_text empty_database calls_A1
                   "A1" eq_refl _)).
  discriminate.
Defined.

(** C2 at the scenario: A1 with 500 and 3 levels, then A1 with 300 and 1. *)
Lemma overwrite_on_merge_witness :
  status (snd (submit empty_database 1 (plain_request "A1" 500 (Val 3)))) = 200 /\
  status (snd (submit (fst (submit empty_database 1
                              (plain_request "A1" 500 (Val 3))))
                 2 (plain_request "A1" 300 (Val 1)))) = 200 /\
  exists r,
    lookup "A1"
      (submit_run empty_database
         [(1, plain_request "A1" 500 (Val 3));
          (2, plain_request "A1" 300 (Val 1))]) = Some r /\
    final_score r = 500 /\ levels_completed r = 1.
Proof.
  split; [reflexivity|]. split; [reflexivity|].
  destruct (proj1 (overwrite_on_merge "{}" stringify_text empty_database 1 2
                     (plain_request "A1" 500 (Val 3))
                     (plain_request "A1" 300 (Val 1)) "A1"
                     eq_refl eq_refl eq_refl eq_refl))
    as (r & s1 & s2 & Hs1 & Hs2 & Hl & Hlev & _ & _ & _ & Hscore).
  exists r. split; [exact Hl|].
  injection Hs1 as <-. injection Hs2 as <-.
  split; [exact Hscore | exact Hlev].
Defined.

(** The two rows of the leaderboard of [db_B1_then_C1]. *)
Definition row_B1 : LeaderboardRow.t string :=
  LeaderboardRow.mk 1 "B1" (Some "Anonymous") 100 0 0%Q 0 "{}" 5.
Definition row_C1 : LeaderboardRow.t string :=
  LeaderboardRow.mk 2 "C1" (Some "Anonymous") 100 0 0%Q 0 "{}" 10.

(** C3 at B1 then C1 with the same score, five seconds apart. *)
Lemma leaderboard_tie_break_witness :
  nth_error (leaderboard_of (board db_B1_then_C1 Undefined Undefined)) 0
  = Some row_B1 /\
  nth_error (leaderboard_of (board db_B1_then_C1 Undefined Undefined)) 1
  = Some row_C1 /\
  LeaderboardRow.final_score row_B1 = LeaderboardRow.final_score row_C1 /\
  LeaderboardRow.rank row_B1 < LeaderboardRow.rank row_C1 /\
  LeaderboardRow.completion_time row_B1 <= LeaderboardRow.completion_time row_C1.
Proof.
  split; [reflexivity|]. split; [reflexivity|]. split; [reflexivity|].
  exact (proj1 (leaderboard_tie_break "{}" stringify_text parse_text
                  db_B1_then_C1 Undefined Undefined 0 1 row_B1 row_C1
                  eq_refl eq_refl eq_refl) Nat.lt_0_1).
Defined.

(** C5 at a store that was filled and then cleared by the administrator. *)
Lemma stats_on_empty_store_witness :
  tournament_scores
    (fst (delete_clear_all db_B1_then_C1 11 (Val "IEEE2025ADMIN") Undefined))
  = [] /\
  get_stats
    (fst (delete_clear_all db_B1_then_C1 11 (Val "IEEE2025ADMIN") Undefined))
  = mkResponse 200 (Success {| stats := StatsRow.mk 0 None None None None |}).
Proof.
  split; [reflexivity|].
  exact (stats_on_empty_store
           (fst (delete_clear_all db_B1_then_C1 11 (Val "IEEE2025ADMIN")
                   Undefined))
           eq_refl).
Defined.

(** C6 at a store whose rowid order is not its rank order: A1 with 300, C1
    and B1 with 500, and C1 submitting again after B1.  B1 has rank 1: no
    record is strictly before it in the order, and it alone is not after
    it. *)
Lemma rank_matches_leaderboard_witness :
  wf db_resubmitted /\
  map registration_number (tournament_scores db_resubmitted)
  = ["A1"; "C1"; "B1"]%string /\
  parseInt (Val "3")
  = Num (Z.of_nat (List.length (tournament_scores db_resubmitted))) /\
  parseInt (Val "0") = Num 0 /\
  get_rank db_resubmitted "B1"
  = mkResponse 200
      (Success {| student :=
                    RankRow.mk 1 "B1" (Some "Anonymous") 500 0 0%Q 0 3 |}) /\
  listing (board db_resubmitted (Val "3") (Val "0"))
  = [(1, "B1"); (2, "C1"); (3, "A1")]%string /\
  position_of "B1"
    (leaderboard_of (board db_resubmitted (Val "3") (Val "0")))
  = Some 1 /\
  get_rank db_resubmitted "Z9"
  = mkResponse 404 (Failure "Student not found in leaderboard.").
Proof.
  assert (wf db_resubmitted) as Hwf.
  { apply wf_submit_all, wf_empty. }
  split; [exact Hwf|]. split; [reflexivity|]. split; [reflexivity|].
  split; [reflexivity|].
  destruct (proj1 (rank_matches_leaderboard parse_text db_resubmitted "B1"
                     (Val "3") (Val "0") Hwf eq_refl eq_refl eq_refl)
              _ eq_refl)
    as (n & Hrank & _ & Hpos & _ & _).
  assert (Some n = Some 1) as Hone by (rewrite <- Hpos; reflexivity).
  injection Hone as ->.
  split; [exact Hrank|]. split; [reflexivity|]. split; [exact Hpos|].
  exact (proj2 (rank_matches_leaderboard parse_text db_resubmitted "Z9"
                  (Val "3") (Val "0") Hwf eq_refl eq_refl eq_refl)
           eq_refl).
Defined.

(** [parseInt] at some query strings: text that is no number, leading white
    space (a tab, and U+00A0 in its two bytes), digits followed by other
    text, a hexadecimal prefix, an integer that is not a double, and one
    beyond the doubles. *)
Lemma parseInt_examples :
  parseInt (Val "abc") = NaN /\
  parseInt (Val "") = NaN /\
  parseInt Undefined = NaN /\
  parseInt (Val "-0") = Num 0 /\
  parseInt (Val (String (ascii_of_nat 9) " 25")) = Num 25 /\
  parseInt (Val (String (ascii_of_nat 194) (String (ascii_of_nat 160) "2")))
  = Num 2 /\
  parseInt (Val "12px") = Num 12 /\
  parseInt (Val "1.9") = Num 1 /\
  parseInt (Val "0x1F") = Num 31 /\
  parseInt (Val "-7") = Num (-7) /\
  parseInt (Val "9223372036854775807") = Num (2 ^ 63) /\
  parseInt (Val "9007199254740993") = Num 9007199254740992 /\
  parseInt (Val "-99999999999999999999") = Num (-100000000000000000000) /\
  bound_limit (Val "9223372036854775807") = None /\
  bound_limit (Val "9223372036854774784") = Some 9223372036854774784 /\
  bound_offset (Val "-99999999999999999999") = None /\
  bound_offset (Val "-5") = Some (-5).
Proof.
  repeat split; vm_compute; reflexivity.
Qed.


(** C8 at the first submission of A1 on an empty store. *)
Lemma submit_response_identity_witness :
  status (snd (submit empty_database 1 (plain_request "A1" 500 Undefined))) = 200 /\
  exists k s sid,
    accepted (plain_request (object := string) "A1" 500 Undefined) = Some (k, s) /\
    json (snd (submit empty_database 1 (plain_request "A1" 500 Undefined)))
    = Success {| message := "Score submitted successfully!";
                 scoreId := sid;
                 rank := None |} /\
    (lookup k empty_database = None ->
     exists r,
       lookup k (fst (submit empty_database 1
                        (plain_request "A1" 500 Undefined))) = Some r /\
       id r = sid).
Proof.
  split; [reflexivity|].
  exact (submit_response_identity "{}" stringify_text empty_database 1
           (plain_request "A1" 500 Undefined) eq_refl).
Defined.

(** C10 at a submission of A1 whose final score is null. *)
Lemma null_score_is_storage_error_witness :
  registrationNumber (req_body (null_score_request "A1")) = Val "A1" /\
  "A1" <> "" /\
  submit db_B1_then_C1 12 (null_score_request "A1")
  = (db_B1_then_C1,
     mkResponse 500 (Failure "Error saving score to database.")).
Proof.
  assert ("A1" <> "") as Hne by discriminate.
  split; [reflexivity|]. split; [exact Hne|].
  exact (proj2 (null_score_is_storage_error "{}" stringify_text db_B1_then_C1
                  12 (null_score_request "A1") "A1" eq_refl Hne)
           eq_refl).
Defined.

(** ** Where the code departs from the specification *)

(** C3: two stores that hold the same records, B1 and C1 with the same score
    submitted within the same second, list them in different orders: the
    rank follows the order of insertion, which neither sort key records. *)
Lemma tie_broken_by_insertion_order :
  same_records db_B1_C1_same_second db_C1_B1_same_second /\
  listing (board db_B1_C1_same_second Undefined Undefined)
  = [(1, "B1"); (2, "C1")] /\
  listing (board db_C1_B1_same_second Undefined Undefined)
  = [(1, "C1"); (2, "B1")].
Proof.
  split; [apply perm_swap|]. split; reflexivity.
Qed.


(** C8: the submission that creates the record of A1 and the one that merges
    into it are answered with the same response, so that nothing in the
    response tells the one from the other. *)
Lemma created_and_merged_answered_alike :
  lookup "A1" empty_database = None /\
  lookup "A1" (fst (submit empty_database 1 (plain_request "A1" 500 Undefined)))
  <> None /\
  snd (submit empty_database 1 (plain_request "A1" 500 Undefined))
  = snd (submit (fst (submit empty_database 1
                        (plain_request "A1" 500 Undefined)))
           2 (plain_request "A1" 300 Undefined)) /\
  status (snd (submit empty_database 1 (plain_request "A1" 500 Undefined)))
  = 200.
Proof.
  split; [reflexivity|]. split; [discriminate|]. split; reflexivity.
Qed.

(** After A1 and then B1 were created, a further submission of A1 merges
    into row 1 and is answered with [scoreId] 2, the row of B1. *)
Lemma merge_reports_last_inserted_row :
  option_map id
    (lookup "A1"
       (submit_run empty_database
          [(1, plain_request "A1" 500 Undefined);
           (2, plain_request "B1" 400 Undefined);
           (3, plain_request "A1" 600 Undefined)])) = Some 1 /\
  json (snd (submit
               (submit_run empty_database
                  [(1, plain_request "A1" 500 Undefined);
                   (2, plain_request "B1" 400 Undefined)])
               3 (plain_request "A1" 600 Undefined)))
  = Success {| message := "Score submitted successfully!";
               scoreId := 2;
               rank := None |}.
Proof.
  split; reflexivity.
Qed.

(** C9: the administrator's clearing of a store of two records empties it
    and is answered with a message and a time stamp, the same response as
    the clearing of an empty store: no count of removed records. *)
Lemma clear_all_reports_no_count :
  List.length (tournament_scores db_B1_then_C1) = 2%nat /\
  tournament_scores
    (fst (delete_clear_all db_B1_then_C1 11 (Val "IEEE2025ADMIN") Undefined))
  = [] /\
  snd (delete_clear_all db_B1_then_C1 11 (Val "IEEE2025ADMIN") Undefined)
  = mkResponse 200
      (Success {| clear_message :=
                    "All tournament data has been cleared successfully.";
                  timestamp := 11 |}) /\
  snd (delete_clear_all db_B1_then_C1 11 (Val "IEEE2025ADMIN") Undefined)
  = snd (delete_clear_all empty_database 11 (Val "IEEE2025ADMIN") Undefined).
Proof.
  repeat split; reflexivity.
Qed.

(** ** The further properties at concrete inputs *)

Definition admin_key : js string := Val "IEEE2025ADMIN".

(** A1 with 300, then B1 and C1 with 500 each. *)
Definition db_three : database :=
  submit_run empty_database
    [(1, plain_request "A1" 300 Undefined);
     (2, plain_request "B1" 500 Undefined);
     (3, plain_request "C1" 500 Undefined)].

(** The stored rows of B1 and C1 in [db_B1_then_C1]. *)
Definition stored_B1 : row :=
  mkRow 1 "B1" (Some "Anonymous") 100 0 0%Q 0 (Some "{}") 5 None None.
Definition stored_C1 : row :=
  mkRow 2 "C1" (Some "Anonymous") 100 0 0%Q 0 (Some "{}") 10 None None.

(** The first and the last row of the leaderboard of [db_three]. *)
Definition first_of_three : LeaderboardRow.t string :=
  LeaderboardRow.mk 1 "B1" (Some "Anonymous") 500 0 0%Q 0 "{}" 2.
Definition last_of_three : LeaderboardRow.t string :=
  LeaderboardRow.mk 3 "A1" (Some "Anonymous") 300 0 0%Q 0 "{}" 1.

(** A1 submits twice, is deleted, and submits again. *)
Definition requests_A1 : list (@request string) :=
  [SubmitScore 1 (plain_request "A1" 300 Undefined);
   SubmitScore 2 (plain_request "A1" 500 Undefined);
   ClearStudent admin_key Undefined (Val "A1") Undefined;
   SubmitScore 3 (plain_request "A1" 100 Undefined)].

Lemma wf_db_B1_then_C1 : wf db_B1_then_C1.
Proof. apply wf_submit_all, wf_empty. Qed.

Lemma wf_db_three : wf db_three.
Proof. apply wf_submit_all, wf_empty. Qed.

Lemma one_record_per_key_witness :
  wf empty_database /\
  wf (serve_all "{}" stringify_text empty_database requests_A1) /\
  (List.length
     (filter (has_key "A1")
        (tournament_scores
           (serve_all "{}" stringify_text empty_database requests_A1)))
   <= 1)%nat.
Proof.
  split; [exact wf_empty|].
  exact (one_record_per_key "{}" stringify_text empty_database requests_A1
           "A1" wf_empty).
Defined.

Lemma submission_leaves_other_records_witness :
  registrationNumber
    (req_body (plain_request (object := string) "A1" 700 Undefined))
  <> Val "B1" /\
  lookup "B1" (fst (submit db_B1_then_C1 20 (plain_request "A1" 700 Undefined)))
  = Some stored_B1.
Proof.
  assert (registrationNumber
            (req_body (plain_request (object := string) "A1" 700 Undefined))
          <> Val "B1") as Hne by discriminate.
  split; [exact Hne|].
  exact (submission_leaves_other_records "{}" stringify_text db_B1_then_C1 20
           (plain_request "A1" 700 Undefined) "B1" Hne).
Defined.

Lemma submission_renews_the_record_witness :
  accepted (plain_request (object := string) "B1" 50 Undefined)
  = Some ("B1", 50) /\
  exists r,
    lookup "B1" (fst (submit db_B1_then_C1 20 (plain_request "B1" 50 Undefined)))
    = Some r /\
    registration_number r = "B1" /\
    completion_time r = 20 /\
    student_name r = Some "Anonymous" /\
    ip_address r = None /\
    session_id r = None /\
    (forall r0, lookup "B1" db_B1_then_C1 = Some r0 -> id r = id r0).
Proof.
  split; [reflexivity|].
  exact (submission_renews_the_record "{}" stringify_text db_B1_then_C1 20
           (plain_request "B1" 50 Undefined) "B1" 50 eq_refl).
Defined.

Lemma better_record_has_smaller_rank_witness :
  lookup "B1" db_B1_then_C1 = Some stored_B1 /\
  lookup "C1" db_B1_then_C1 = Some stored_C1 /\
  exists na nb,
    rank_of (get_rank db_B1_then_C1 "B1") = Some na /\
    rank_of (get_rank db_B1_then_C1 "C1") = Some nb /\
    na < nb.
Proof.
  split; [reflexivity|]. split; [reflexivity|].
  refine (better_record_has_smaller_rank db_B1_then_C1 "B1" "C1" stored_B1
            stored_C1 wf_db_B1_then_C1 eq_refl eq_refl _).
  right. split; [reflexivity|]. reflexivity.
Defined.

Lemma resubmission_moves_behind_equal_scores_witness :
  rank_of (get_rank db_B1_then_C1 "B1") = Some 1 /\
  accepted (plain_request (object := string) "B1" 50 Undefined)
  = Some ("B1", 50) /\
  exists na nb,
    rank_of (get_rank
               (fst (submit db_B1_then_C1 20 (plain_request "B1" 50 Undefined)))
               "B1") = Some na /\
    rank_of (get_rank
               (fst (submit db_B1_then_C1 20 (plain_request "B1" 50 Undefined)))
               "C1") = Some nb /\
    nb < na.
Proof.
  split; [reflexivity|]. split; [reflexivity|].
  refine (resubmission_moves_behind_equal_scores "{}" stringify_text
            db_B1_then_C1 20 (plain_request "B1" 50 Undefined) "B1" "C1"
            stored_B1 stored_C1 50 wf_db_B1_then_C1 _ eq_refl eq_refl eq_refl
            eq_refl _ _).
  - discriminate.
  - discriminate.
  - reflexivity.
Defined.

Lemma page_rows_carry_table_ranks_witness :
  nth_error (leaderboard_of (board db_B1_then_C1 (Val "1") (Val "1"))) 0
  = Some row_C1 /\
  LeaderboardRow.rank row_C1 = Z.max 0 (effective_offset (Val "1")) + 0 + 1 /\
  rank_of (get_rank db_B1_then_C1 "C1") = Some 2 /\
  exists r,
    lookup "C1" db_B1_then_C1 = Some r /\
    row_C1 = parse_breakdown parse_text (select_columns (2, r)).
Proof.
  split; [reflexivity|].
  exact (page_rows_carry_table_ranks parse_text db_B1_then_C1 (Val "1")
           (Val "1") 0 row_C1 wf_db_B1_then_C1 eq_refl).
Defined.

Lemma board_is_sorted_by_score_witness :
  nth_error (leaderboard_of (board db_three Undefined Undefined)) 0
  = Some first_of_three /\
  nth_error (leaderboard_of (board db_three Undefined Undefined)) 2
  = Some last_of_three /\
  LeaderboardRow.final_score last_of_three
  <= LeaderboardRow.final_score first_of_three /\
  LeaderboardRow.rank first_of_three < LeaderboardRow.rank last_of_three.
Proof.
  split; [reflexivity|]. split; [reflexivity|].
  refine (board_is_sorted_by_score parse_text db_three Undefined Undefined
            0 2 first_of_three last_of_three eq_refl eq_refl _).
  apply Nat.lt_0_succ.
Defined.

Lemma consecutive_pages_concatenate_witness :
  listing (board db_three (Val "1") (Val "0")) = [(1, "B1")] /\
  listing (board db_three (Val "2") (Val "1")) = [(2, "C1"); (3, "A1")] /\
  (leaderboard_of (board db_three (Val "1") (Val "0"))
   ++ leaderboard_of (board db_three (Val "2") (Val "1")))%list
  = leaderboard_of (board db_three (Val "3") (Val "0")).
Proof.
  split; [reflexivity|]. split; [reflexivity|].
  refine (consecutive_pages_concatenate parse_text db_three (Val "1") (Val "2")
            (Val "3") (Val "0") (Val "1") 1 2 0 _ _ _
            eq_refl eq_refl eq_refl eq_refl eq_refl).
  - reflexivity.
  - reflexivity.
  - discriminate.
Defined.

Lemma unlimited_board_lists_every_record_witness :
  bound_limit (Val "-1") = Some (-1) /\
  bound_offset Undefined = Some 0 /\
  status (board db_three (Val "-1") Undefined) = 200 /\
  Permutation
    (map LeaderboardRow.registration_number
       (leaderboard_of (board db_three (Val "-1") Undefined)))
    (map registration_number (tournament_scores db_three)).
Proof.
  split; [reflexivity|]. split; [reflexivity|].
  refine (unlimited_board_lists_every_record parse_text db_three (Val "-1")
            Undefined (-1) 0 eq_refl eq_refl _ _).
  - left. reflexivity.
  - discriminate.
Defined.

(** A page of two rows from the second row on, and a limit that cannot be
    bound as a 64-bit integer. *)
Lemma page_size_witness :
  bound_limit (Val "2") = Some 2 /\
  bound_offset (Val "1") = Some 1 /\
  json (board db_three (Val "2") (Val "1"))
  = Success
      {| leaderboard := leaderboard_of (board db_three (Val "2") (Val "1"));
         total := 2 |} /\
  listing (board db_three (Val "2") (Val "1")) = [(2, "C1"); (3, "A1")]%string /\
  bound_limit (Val "-99999999999999999999") = None /\
  board db_three (Val "-99999999999999999999") Undefined
  = mkResponse 500 (Failure "Error fetching leaderboard.") /\
  bound_limit (Val "abc") = Some 100.
Proof.
  split; [reflexivity|]. split; [reflexivity|].
  split.
  { exact (f_equal json
             (proj1 (proj1 (page_size parse_text db_three (Val "2") (Val "1"))
                       2 1 eq_refl eq_refl))). }
  split; [reflexivity|]. split; [reflexivity|]. split.
  { exact (proj1 (proj1 (proj2 (page_size parse_text db_three
                                  (Val "-99999999999999999999") Undefined))
                    (or_introl eq_refl))). }
  exact (proj2 (proj2 (page_size parse_text db_three (Val "abc") Undefined))
           (or_introl eq_refl)).
Defined.

Lemma wrong_query_key : ~ authorized (Val "guess") admin_key.
Proof. intros [H | [H _]]; discriminate. Qed.

Lemma admin_requests_need_the_key_witness :
  delete_clear_all db_three 9 (Val "guess") admin_key
  = (db_three, mkResponse 403 (Failure "Unauthorized. Admin key required.")) /\
  delete_clear_student db_three (Val "guess") admin_key (Val "A1") Undefined
  = (db_three, mkResponse 403 (Failure "Unauthorized. Admin key required.")) /\
  get_backup parse_text db_three 9 (Val "guess") admin_key
  = mkResponse 403 (BackupRefused "Unauthorized. Admin key required.").
Proof.
  exact (admin_requests_need_the_key parse_text db_three 9 (Val "guess")
           admin_key (Val "A1") Undefined wrong_query_key).
Defined.

Lemma header_key : authorized Undefined admin_key.
Proof. right. split; reflexivity. Qed.

Lemma clear_all_empties_every_view_witness :
  status (snd (delete_clear_all db_three 9 Undefined admin_key)) = 200 /\
  tournament_scores (fst (delete_clear_all db_three 9 Undefined admin_key))
  = [] /\
  (forall query_limit query_offset,
      leaderboard_of
        (board (fst (delete_clear_all db_three 9 Undefined admin_key))
           query_limit query_offset) = []) /\
  (forall k,
      status (get_rank (fst (delete_clear_all db_three 9 Undefined admin_key)) k)
      = 404) /\
  StatsRow.total_participants
    (statsQuery (fst (delete_clear_all db_three 9 Undefined admin_key))) = 0 /\
  (forall now' req k s,
      accepted req = Some (k, s) ->
      score_of k
        (fst (submit (fst (delete_clear_all db_three 9 Undefined admin_key))
                now' req))
      = Some s).
Proof.
  exact (clear_all_empties_every_view "{}" stringify_text parse_text db_three 9
           Undefined admin_key header_key).
Defined.

Lemma clear_student_refusals_witness :
  delete_clear_student db_three Undefined admin_key Undefined (Val "")
  = (db_three, mkResponse 400 (Failure "Registration number is required.")) /\
  delete_clear_student db_three Undefined admin_key (Val "Z9") Undefined
  = (db_three, mkResponse 404 (Failure "Student not found.")).
Proof.
  split.
  - exact (proj1 (clear_student_refusals db_three Undefined admin_key Undefined
                    (Val "") header_key) eq_refl).
  - exact (proj2 (clear_student_refusals db_three Undefined admin_key
                    (Val "Z9") Undefined header_key) "Z9" eq_refl eq_refl).
Defined.

Lemma clear_student_removes_the_record_witness :
  lookup "B1" db_B1_then_C1 = Some stored_B1 /\
  snd (delete_clear_student db_B1_then_C1 Undefined admin_key (Val "B1")
         Undefined)
  = mkResponse 200
      (Success {| delete_message := "Student record for B1 has been deleted.";
                  deletedRecords := 1 |}) /\
  lookup "B1"
    (fst (delete_clear_student db_B1_then_C1 Undefined admin_key (Val "B1")
            Undefined)) = None /\
  lookup "C1"
    (fst (delete_clear_student db_B1_then_C1 Undefined admin_key (Val "B1")
            Undefined)) = Some stored_C1.
Proof.
  split; [reflexivity|].
  destruct (clear_student_removes_the_record db_B1_then_C1 Undefined admin_key
              (Val "B1") Undefined "B1" stored_B1 wf_db_B1_then_C1 header_key
              eq_refl eq_refl) as (Hresp & Hgone & _ & Hother & _).
  split; [exact Hresp|]. split; [exact Hgone|].
  refine (Hother "C1" _). discriminate.
Defined.

Lemma best_score_restarts_after_deletion_witness :
  score_of "B1" db_B1_then_C1 = Some 100 /\
  accepted (plain_request (object := string) "B1" 40 Undefined)
  = Some ("B1", 40) /\
  score_of "B1"
    (fst (submit
            (fst (delete_clear_student db_B1_then_C1 Undefined admin_key
                    (Val "B1") Undefined))
            30 (plain_request "B1" 40 Undefined)))
  = Some 40.
Proof.
  split; [reflexivity|]. split; [reflexivity|].
  exact (best_score_restarts_after_deletion "{}" stringify_text db_B1_then_C1
           Undefined admin_key (Val "B1") Undefined "B1" 30
           (plain_request "B1" 40 Undefined) 40 header_key eq_refl eq_refl).
Defined.

Lemma backup_exports_every_record_witness :
  map (fun r => (BackupRow.registration_number r, BackupRow.completion_time r))
    (backup_data (get_backup parse_text db_three 9 Undefined admin_key))
  = [("C1", 3); ("B1", 2); ("A1", 1)] /\
  get_backup parse_text db_three 9 Undefined admin_key
  = mkResponse 200
      (Backup 9 (StatsRow.total_participants (statsQuery db_three))
         (backup_data (get_backup parse_text db_three 9 Undefined admin_key))) /\
  Permutation
    (backup_data (get_backup parse_text db_three 9 Undefined admin_key))
    (map (fun r => parse_backup_row parse_text (select_all r))
       (tournament_scores db_three)).
Proof.
  split; [reflexivity|].
  destruct (backup_exports_every_record parse_text db_three 9 Undefined
              admin_key header_key) as (Hresp & Hperm & _).
  split; [exact Hresp | exact Hperm].
Defined.

Lemma ids_fresh_empty : ids_fresh empty_database.
Proof. split; constructor. Qed.

(** A1 and B1 are created, the table is cleared, A1 is created again. *)
Definition requests_after_clear : list (@request string) :=
  [SubmitScore 1 (plain_request "A1" 300 Undefined);
   SubmitScore 2 (plain_request "B1" 500 Undefined);
   ClearAll 3 admin_key Undefined;
   SubmitScore 4 (plain_request "A1" 100 Undefined)].

Lemma row_ids_are_never_reused_witness :
  map id (tournament_scores
            (serve_all "{}" stringify_text empty_database requests_after_clear))
  = [3] /\
  ids_fresh (serve_all "{}" stringify_text empty_database requests_after_clear) /\
  sqlite_sequence empty_database
  <= sqlite_sequence
       (serve_all "{}" stringify_text empty_database requests_after_clear).
Proof.
  split; [reflexivity|].
  destruct (row_ids_are_never_reused "{}" stringify_text empty_database
              requests_after_clear ids_fresh_empty) as (Hfresh & Hseq & _).
  split; [exact Hfresh | exact Hseq].
Defined.

